(** * The ticket rewriter of [backend/app.py]

    A shallow embedding of the prompt builder, the response parser, the
    fallback generator, the rewrite loop and the document builder of the
    update endpoint, with the properties the specification states about them.

    A Python [str] is a [string] whose characters are read as the code
    points below 256; the character classes below are Python's on that
    range.  A [dict] with string keys and values is a [gmap string string]. *)

From Stdlib Require Import String Ascii List Arith Lia Bool NArith ZArith DecimalString.
From stdpp Require Import gmap strings.
Import ListNotations.

Local Open Scope string_scope.
Local Open Scope list_scope.

(** ** Characters *)

Definition LF : ascii := "010"%char.
Definition dquote : string := String "034"%char "".

(** [str.isspace] on one character: TAB..CR, FS..US, space, NEL, NBSP.
    [str.strip()] and the [\s] of [re] both use this class. *)
Definition isspace (c : ascii) : bool :=
  let n := N_of_ascii c in
  ((9 <=? n) && (n <=? 13) || (28 <=? n) && (n <=? 32) || (n =? 133) || (n =? 160))%N.

(** The [\d] of [re]: the decimal digits. *)
Definition isdigit (c : ascii) : bool :=
  let n := N_of_ascii c in ((48 <=? n) && (n <=? 57))%N.

(** [str.lower] on one character: A..Z and the upper-case letters of the
    Latin-1 block (all of 0xC0..0xDE but the multiplication sign). *)
Definition lower_char (c : ascii) : ascii :=
  let n := N_of_ascii c in
  if ((65 <=? n) && (n <=? 90) || (192 <=? n) && (n <=? 222) && negb (n =? 215))%N
  then ascii_of_N (n + 32) else c.

(** [str.isupper] on one character: the upper-case letters below 256 are
    A..Z, 0xC0..0xD6 and 0xD8..0xDE.  The class is given by the code points,
    not by what [lower_char] does. *)
Definition isupper (c : ascii) : bool :=
  let n := N_of_ascii c in
  ((65 <=? n) && (n <=? 90) || (192 <=? n) && (n <=? 214) || (216 <=? n) && (n <=? 222))%N.

(** ** The [str] methods the program calls *)

(** [s.lower()] *)
Fixpoint lower (s : string) : string :=
  match s with
  | "" => ""
  | String c s' => String (lower_char c) (lower s')
  end.

(** [sub in s] *)
Fixpoint str_in (sub s : string) : bool :=
  String.prefix sub s ||
  match s with
  | "" => false
  | String _ s' => str_in sub s'
  end.

(** [s.replace(old, new)], left to right over the occurrences of [old] that
    do not overlap; [skip] counts the characters of an occurrence still to be
    passed over.  [old] is a non-empty marker at every call. *)
Fixpoint replace_from (old new : string) (skip : nat) (s : string) : string :=
  match s with
  | "" => ""
  | String c s' =>
      match skip with
      | S k => replace_from old new k s'
      | O =>
          if String.prefix old s
          then new +:+ replace_from old new (String.length old - 1) s'
          else String c (replace_from old new 0 s')
      end
  end.

Definition replace (old new s : string) : string := replace_from old new 0 s.

(** [s.split(sep)] for a non-empty [sep]: the pieces between the leftmost
    occurrences of [sep] that do not overlap; never the empty list. *)
Definition cons_head (c : ascii) (pieces : list string) : list string :=
  match pieces with
  | p :: ps => String c p :: ps
  | [] => [String c ""]
  end.

Fixpoint split_from (sep : string) (skip : nat) (s : string) : list string :=
  match s with
  | "" => [""]
  | String c s' =>
      match skip with
      | S k => split_from sep k s'
      | O =>
          if String.prefix sep s
          then "" :: split_from sep (String.length sep - 1) s'
          else cons_head c (split_from sep 0 s')
      end
  end.

Definition split (sep s : string) : list string := split_from sep 0 s.

(** [s.strip()] *)
Fixpoint lstrip (s : string) : string :=
  match s with
  | "" => ""
  | String c s' => if isspace c then lstrip s' else s
  end.

Fixpoint rstrip (s : string) : string :=
  match s with
  | "" => ""
  | String c s' =>
      match rstrip s' with
      | "" => if isspace c then "" else String c ""
      | r => String c r
      end
  end.

Definition strip (s : string) : string := rstrip (lstrip s).

(** ** The two regular expressions *)

(** The longest run of digits is passed over: [\d+] is greedy, and giving
    a digit back never helps, since the next pattern character is a dot. *)
Fixpoint skip_digits (s : string) : string :=
  match s with
  | "" => ""
  | String c s' => if isdigit c then skip_digits s' else s
  end.

(** What follows a match of [^\d+\.] at the start of [s], if there is one. *)
Definition after_number_dot (s : string) : option string :=
  match s with
  | String c s' =>
      if isdigit c then
        match skip_digits s' with
        | String "." rest => Some rest
        | _ => None
        end
      else None
  | "" => None
  end.

(** [re.match(r'^\d+\.', line)] as a truth value *)
Definition re_match_number (line : string) : bool :=
  match after_number_dot line with Some _ => true | None => false end.

(** [re.sub(r'^\d+\.\s*', '', criterion)]: the pattern is anchored at the
    start of the string, so at most one match is replaced. *)
Definition re_sub_number (criterion : string) : string :=
  match after_number_dot criterion with
  | Some rest => lstrip rest
  | None => criterion
  end.

(** [f"{i}"] for a non-negative integer *)
Definition format_int (i : nat) : string := NilEmpty.string_of_uint (Nat.to_uint i).

Definition nl2 : string := String LF (String LF "").
Definition nl1 : string := String LF "".

(** ** Data model *)

Record Ticket := {
  key : string;
  summary : string;
  description : option string
}.

(** The dictionary the parser and the fallback generator return. *)
Record ParsedResponse := {
  user_story : string;
  pr_acceptance_criteria : list string;
  pr_technical_context : string
}.

Record RewrittenTicket := {
  rt_key : string;
  original_title : string;
  rewritten_title : string;
  rewritten_description : string;
  acceptance_criteria : list string;
  technical_context : string
}.

(** ** [_create_prompt] *)

Fixpoint unlines (lines : list string) : string :=
  match lines with
  | [] => ""
  | [l] => l
  | l :: ls => l +:+ String LF (unlines ls)
  end.

Definition prompt_intro : string :=
  unlines
    [ "";
      "    You are an expert in agile development and writing proper user stories. Your task is to rewrite the following Jira ticket as a well-structured user story with acceptance criteria. Focus on translating technical issues into user-centric problems and solutions.";
      "";
      "    Ticket Title: " ].

Definition prompt_between : string :=
  unlines
    [ "";
      "    ";
      "    Ticket Description:";
      "    " ].

Definition prompt_instructions : string :=
  unlines
    [ "";
      "    ";
      "    Analysis Instructions:";
      "    1. For performance issues (like slow loading, lagging, timeouts):";
      "       - Identify the specific user impact (frustration, abandoned transactions, etc.)";
      "       - Specify measurable performance targets (e.g., " +:+ dquote +:+ "page should load in under 2 seconds" +:+ dquote +:+ ")";
      "       - Include technical root causes when possible (e.g., " +:+ dquote +:+ "inefficient database queries" +:+ dquote +:+ ")";
      "    ";
      "    2. For bug reports:";
      "       - Clearly describe the expected vs. actual behavior";
      "       - Specify the conditions under which the bug occurs";
      "       - Include steps to reproduce when available";
      "    ";
      "    3. For feature requests:";
      "       - Focus on the business value and user benefit";
      "       - Be specific about the success criteria";
      "    ";
      "    Follow this exact format for your response:";
      "    ";
      "    USER STORY:";
      "    As a [specific user role], I want [specific goal related to the issue] so that [clear business benefit].";
      "    ";
      "    ACCEPTANCE CRITERIA:";
      "    1. [Specific measurable criterion with clear performance targets]";
      "    2. [Another specific measurable criterion]";
      "    3. [Additional criterion addressing edge cases or related functionality]";
      "    ... (add more as needed)";
      "    ";
      "    TECHNICAL CONTEXT:";
      "    [Brief explanation of the technical issue, potential root causes, and why it matters to users and the business]";
      "    " ].

Definition _create_prompt (ticket_data : gmap string string) : string :=
  prompt_intro +:+ default "No Title" (ticket_data !! "summary")
  +:+ prompt_between +:+ default "No Description" (ticket_data !! "description")
  +:+ prompt_instructions.

(** ** [_parse_ai_response] *)

Inductive section_name :=
| in_user_story
| in_acceptance_criteria
| in_technical_context.

(** The variables the loop over the sections updates. *)
Record parse_state := {
  current_section : option section_name;
  st_user_story : string;
  st_acceptance_criteria : list string;
  st_technical_context : string
}.

Definition parse_init : parse_state :=
  {| current_section := None; st_user_story := "";
     st_acceptance_criteria := []; st_technical_context := "" |}.

Definition nonempty (s : string) : bool :=
  match s with "" => false | _ => true end.

(** The inner loop over the lines of a criteria block: the stripped lines
    that start with a number and a dot, in order. *)
Definition numbered_lines (text : string) : list string :=
  List.filter re_match_number (List.map strip (split nl1 text)).

(** One turn of the loop over the sections. *)
Definition parse_section (st : parse_state) (section : string) : parse_state :=
  let section := strip section in
  if negb (nonempty section) then st
  else if str_in "USER STORY:" section then
    {| current_section := Some in_user_story;
       st_user_story := strip (replace "USER STORY:" "" section);
       st_acceptance_criteria := st_acceptance_criteria st;
       st_technical_context := st_technical_context st |}
  else if str_in "ACCEPTANCE CRITERIA:" section then
    let criteria_text := strip (replace "ACCEPTANCE CRITERIA:" "" section) in
    {| current_section := Some in_acceptance_criteria;
       st_user_story := st_user_story st;
       st_acceptance_criteria := st_acceptance_criteria st ++ numbered_lines criteria_text;
       st_technical_context := st_technical_context st |}
  else if str_in "TECHNICAL CONTEXT:" section then
    {| current_section := Some in_technical_context;
       st_user_story := st_user_story st;
       st_acceptance_criteria := st_acceptance_criteria st;
       st_technical_context := strip (replace "TECHNICAL CONTEXT:" "" section) |}
  else
    match current_section st with
    | Some in_user_story =>
        {| current_section := current_section st;
           st_user_story := st_user_story st +:+ " " +:+ section;
           st_acceptance_criteria := st_acceptance_criteria st;
           st_technical_context := st_technical_context st |}
    | Some in_acceptance_criteria =>
        {| current_section := current_section st;
           st_user_story := st_user_story st;
           st_acceptance_criteria := st_acceptance_criteria st ++ numbered_lines section;
           st_technical_context := st_technical_context st |}
    | Some in_technical_context =>
        {| current_section := current_section st;
           st_user_story := st_user_story st;
           st_acceptance_criteria := st_acceptance_criteria st;
           st_technical_context := st_technical_context st +:+ " " +:+ section |}
    | None => st
    end.

(** The state when the loop over [response_text.split('\n\n')] ends. *)
Definition parse_sections (response_text : string) : parse_state :=
  fold_left parse_section (split nl2 response_text) parse_init.

Definition default_criterion : string := "The functionality should work as expected.".
Definition default_user_story : string :=
  "As a user, I want this issue resolved so that I can work efficiently.".
Definition default_technical_context : string :=
  "This ticket addresses a technical issue that impacts user experience.".

(** [x or d] on strings and on lists *)
Definition or_str (x d : string) : string := if nonempty x then x else d.
Definition or_list {A} (x d : list A) : list A :=
  match x with [] => d | _ => x end.

(** What the code after the loop makes of the captured values. *)
Definition parse_finish (st : parse_state) : ParsedResponse :=
  let acceptance_criteria :=
    or_list (st_acceptance_criteria st) ["1. " +:+ default_criterion] in
  let formatted_criteria :=
    List.filter nonempty (List.map re_sub_number acceptance_criteria) in
  {| user_story := or_str (st_user_story st) default_user_story;
     pr_acceptance_criteria := or_list formatted_criteria [default_criterion];
     pr_technical_context := or_str (st_technical_context st) default_technical_context |}.

Definition _parse_ai_response (response_text : string) : ParsedResponse :=
  parse_finish (parse_sections response_text).

(** ** [_generate_better_fallback_response] *)

Definition performance_keywords : list string :=
  ["slow"; "lag"; "performance"; "speed"; "loading"; "timeout"].

Definition is_performance_issue (summary description : string) : bool :=
  existsb (fun keyword => str_in keyword summary || str_in keyword description)
          performance_keywords.

Definition performance_criteria : list string :=
  [ "Page should load in under 2 seconds on standard connection speeds";
    "UI interactions (clicks, scrolls, inputs) should respond within 100ms";
    "All animations should run at 60fps without visual stuttering";
    "Performance should be consistent across supported browsers and devices" ].

Definition generic_criteria : list string :=
  [ "The functionality should work as expected in all supported browsers";
    "The implementation should meet all business requirements";
    "The solution should be thoroughly tested with automated tests";
    "The solution should maintain or improve current performance metrics" ].

Definition generic_technical_context : string :=
  "This ticket addresses a technical issue that impacts user experience and business goals. Proper implementation will ensure system reliability and user satisfaction.".

Definition _generate_better_fallback_response (ticket_data : gmap string string)
  : ParsedResponse :=
  let summary := lower (default "No Title" (ticket_data !! "summary")) in
  let description := lower (default "" (ticket_data !! "description")) in
  if is_performance_issue summary description then
    {| user_story :=
         "As a user, I want the " +:+ summary +:+
         " to respond quickly so that I can complete my tasks efficiently without frustration.";
       pr_acceptance_criteria := performance_criteria;
       pr_technical_context :=
         "The " +:+ summary +:+
         " is experiencing performance issues that negatively impact user experience. This could be due to inefficient code, excessive network requests, unoptimized assets, or server-side bottlenecks. Fixing this will improve user satisfaction and potentially increase conversion rates." |}
  else
    {| user_story :=
         "As a user, I want to " +:+ summary +:+ " so that I can achieve my goals efficiently.";
       pr_acceptance_criteria := generic_criteria;
       pr_technical_context := generic_technical_context |}.

(** ** [rewrite_tickets] *)

(** What one call of [model.generate_content] does: it raises (reading
    [response.text] included), or it returns a response whose text is
    missing ([None]) or a string, which may be empty. *)
Inductive generate_result :=
| Raised
| Response (text : option string).

(** What the endpoint returns to the framework. *)
Inductive http_result (A : Type) :=
| Ok (body : A)
| HTTPException (status_code : nat) (detail : string).
Arguments Ok {A} body.
Arguments HTTPException {A} status_code detail.

(** The dictionary built from a ticket, [description or ""] included. *)
Definition ticket_dict (ticket : Ticket) : gmap string string :=
  {[ "summary" := summary ticket;
     "description" := default "" (description ticket) ]}.

(** The loop over [enumerate(acceptance_criteria, i)]. *)
Fixpoint number_from (i : nat) (acceptance_criteria : list string) : list string :=
  match acceptance_criteria with
  | [] => []
  | criterion :: rest =>
      let clean_criterion := re_sub_number criterion in
      (format_int i +:+ ". " +:+ clean_criterion) :: number_from (S i) rest
  end.

Definition numbered_criteria (acceptance_criteria : list string) : list string :=
  number_from 1 acceptance_criteria.

(** The body of the loop for one ticket: the [try] block and its handler.
    Both the parser and the fallback generator return a list of criteria, so
    the [isinstance] test never replaces it.  Nothing after the model call
    raises, so the handler runs only when the call itself raised. *)
Definition rewrite_ticket (generate_content : string -> generate_result)
    (ticket : Ticket) : RewrittenTicket :=
  let prompt := _create_prompt (ticket_dict ticket) in
  match generate_content prompt with
  | Response text =>
      let parsed_response :=
        match text with
        | None => _generate_better_fallback_response (ticket_dict ticket)
        | Some generated_text =>
            if negb (nonempty generated_text)
            then _generate_better_fallback_response (ticket_dict ticket)
            else _parse_ai_response generated_text
        end in
      let user_story := user_story parsed_response in
      let acceptance_criteria := pr_acceptance_criteria parsed_response in
      let technical_context := pr_technical_context parsed_response in
      let description := user_story +:+ nl2 +:+ technical_context in
      {| rt_key := key ticket;
         original_title := summary ticket;
         rewritten_title := user_story;
         rewritten_description := description;
         acceptance_criteria := numbered_criteria acceptance_criteria;
         technical_context := technical_context |}
  | Raised =>
      let parsed_response := _generate_better_fallback_response (ticket_dict ticket) in
      let user_story := user_story parsed_response in
      let acceptance_criteria := pr_acceptance_criteria parsed_response in
      let technical_context := pr_technical_context parsed_response in
      {| rt_key := key ticket;
         original_title := summary ticket;
         rewritten_title := user_story;
         rewritten_description := user_story +:+ nl2 +:+ technical_context;
         acceptance_criteria := numbered_criteria acceptance_criteria;
         technical_context := technical_context |}
  end.

(** The loop over the tickets.  The model is called once per ticket, so the
    [n]-th call (from 0) is the call for the [n]-th ticket; [model n] is
    what that call does with the prompt it is given. *)
Fixpoint rewrite_loop (model : nat -> string -> generate_result) (n : nat)
    (tickets : list Ticket) : list RewrittenTicket :=
  match tickets with
  | [] => []
  | ticket :: rest => rewrite_ticket (model n) ticket :: rewrite_loop model (S n) rest
  end.

Definition rewrite_tickets (model : nat -> string -> generate_result)
    (tickets : list Ticket) : http_result (list RewrittenTicket) :=
  let rewritten_tickets := rewrite_loop model 0 tickets in
  match rewritten_tickets with
  | [] => HTTPException 500 "Failed to generate any user stories"
  | _ => Ok rewritten_tickets
  end.

(** ** [update_tickets]: the document sent to the tracker *)

(** The nodes of the document format, one constructor per ["type"]. *)
#[local] Unset Elimination Schemes.
Inductive adf_node :=
| adf_text (text : string)
| adf_paragraph (content : list adf_node)
| adf_heading (level : nat) (content : list adf_node)
| adf_listItem (content : list adf_node)
| adf_bulletList (content : list adf_node)
| adf_doc (version : nat) (content : list adf_node).
#[local] Set Elimination Schemes.

Definition paragraph_block (para : string) : adf_node :=
  adf_paragraph [adf_text (strip para)].

Definition heading_block : adf_node :=
  adf_heading 2 [adf_text "Acceptance Criteria"].

Definition list_item (criterion : string) : adf_node :=
  adf_listItem [adf_paragraph [adf_text criterion]].

Definition adf_content (ticket : RewrittenTicket) : list adf_node :=
  let description_paras := split nl2 (rewritten_description ticket) in
  let paragraphs :=
    flat_map (fun para => if nonempty (strip para) then [paragraph_block para] else [])
             description_paras in
  let list_items := List.map list_item (acceptance_criteria ticket) in
  paragraphs ++ [heading_block] ++ [adf_bulletList list_items].

(** The fields of the update request: the summary and the document. *)
Definition update_payload (ticket : RewrittenTicket) : string * adf_node :=
  (rewritten_title ticket, adf_doc 1 (adf_content ticket)).

(** ** Notions the properties are stated with *)

(** The model call counts as failed when it raised or gave no text. *)
Definition model_failed (r : generate_result) : bool :=
  match r with
  | Raised => true
  | Response None => true
  | Response (Some text) => negb (nonempty text)
  end.

(** The prompt of step 1 for a ticket. *)
Definition prompt_for (ticket : Ticket) : string :=
  _create_prompt (ticket_dict ticket).

(** The parsed response the loop body works with, by the outcome of the call. *)
Definition parsed_response_of (r : generate_result) (ticket : Ticket) : ParsedResponse :=
  if model_failed r then _generate_better_fallback_response (ticket_dict ticket)
  else match r with
       | Response (Some generated_text) => _parse_ai_response generated_text
       | _ => _generate_better_fallback_response (ticket_dict ticket)
       end.

(** The record steps 4 to 6 make of a ticket and a parsed response. *)
Definition assemble (ticket : Ticket) (parsed_response : ParsedResponse) : RewrittenTicket :=
  {| rt_key := key ticket;
     original_title := summary ticket;
     rewritten_title := user_story parsed_response;
     rewritten_description :=
       user_story parsed_response +:+ nl2 +:+ pr_technical_context parsed_response;
     acceptance_criteria := numbered_criteria (pr_acceptance_criteria parsed_response);
     technical_context := pr_technical_context parsed_response |}.

(** The paragraphs of a description that the document keeps. *)
Definition description_paragraphs (rewritten_description : string) : list string :=
  List.filter (fun para => nonempty (strip para)) (split nl2 rewritten_description).

(** A string has an upper-case letter: one of A..Z, 0xC0..0xD6, 0xD8..0xDE. *)
Fixpoint has_upper (s : string) : bool :=
  match s with
  | "" => false
  | String c s' => isupper c || has_upper s'
  end.

(** ** [update_tickets]: the loop over the tickets *)

(** What one [requests.put] with [raise_for_status] does: it succeeds, or
    something in it raises, with the text [str(e)] of the exception. *)
Inductive put_result :=
| PutOk
| PutRaised (message : string).

(** The dictionary the endpoint returns. *)
Record UpdateResult := {
  success : bool;
  updated_tickets : list string;
  failed_tickets : list (string * string)
}.

Definition issue_url (JIRA_DOMAIN ticket_key : string) : string :=
  "https://" +:+ JIRA_DOMAIN +:+ "/rest/api/3/issue/" +:+ ticket_key.

(** The loop, with the two lists it appends to.  [put n] is what the
    [n]-th request (from 0) does with its URL and payload; building the
    document raises nothing, so a ticket fails only when its request does. *)
Fixpoint update_loop (JIRA_DOMAIN : string)
    (put : nat -> string -> string * adf_node -> put_result) (n : nat)
    (tickets : list RewrittenTicket)
    (updated : list string) (failed : list (string * string))
  : list string * list (string * string) :=
  match tickets with
  | [] => (updated, failed)
  | ticket :: rest =>
      match put n (issue_url JIRA_DOMAIN (rt_key ticket)) (update_payload ticket) with
      | PutOk =>
          update_loop JIRA_DOMAIN put (S n) rest (updated ++ [rt_key ticket]) failed
      | PutRaised message =>
          update_loop JIRA_DOMAIN put (S n) rest updated
            (failed ++ [(rt_key ticket, message)])
      end
  end.

Definition update_tickets (JIRA_DOMAIN : string)
    (put : nat -> string -> string * adf_node -> put_result)
    (tickets : list RewrittenTicket) : UpdateResult :=
  let '(updated, failed) := update_loop JIRA_DOMAIN put 0 tickets [] [] in
  {| success := (0 <? length updated)%nat;
     updated_tickets := updated;
     failed_tickets := failed |}.

(** The outcome of the request for the ticket at position [i]. *)
Definition put_outcome (JIRA_DOMAIN : string)
    (put : nat -> string -> string * adf_node -> put_result)
    (i : nat) (ticket : RewrittenTicket) : put_result :=
  put i (issue_url JIRA_DOMAIN (rt_key ticket)) (update_payload ticket).

(** The tickets of an update request paired with what their requests did. *)
Definition put_outcomes (JIRA_DOMAIN : string)
    (put : nat -> string -> string * adf_node -> put_result)
    (tickets : list RewrittenTicket) : list (RewrittenTicket * put_result) :=
  imap (fun i ticket => (ticket, put_outcome JIRA_DOMAIN put i ticket)) tickets.

Definition updated_key (entry : RewrittenTicket * put_result) : option string :=
  match snd entry with
  | PutOk => Some (rt_key (fst entry))
  | PutRaised _ => None
  end.

Definition failed_entry (entry : RewrittenTicket * put_result) : option (string * string) :=
  match snd entry with
  | PutOk => None
  | PutRaised message => Some (rt_key (fst entry), message)
  end.

(** A text with no blank at either end. *)
Definition trimmed (x : string) : Prop := lstrip x = x /\ rstrip x = x.

(** A text made of blanks only (the empty text included). *)
Fixpoint blank (s : string) : bool :=
  match s with
  | "" => true
  | String c s' => isspace c && blank s'
  end.

(** ** [get_issues] *)

(** A decoded JSON value, as [response.json()] returns it: [None], a bool,
    a number, a [str], a [list] or a [dict] with string keys. *)
#[local] Unset Elimination Schemes.
Inductive json :=
| JNull
| JBool (b : bool)
| JNumber (n : Z)
| JString (s : string)
| JArray (items : list json)
| JObject (members : gmap string json).
#[local] Set Elimination Schemes.

(** The exceptions the operations on decoded values raise. *)
Inductive py_error :=
| TypeError
| KeyError
| AttributeError
| IndexError.

(** A computation that returns a value or raises. *)
Inductive py (A : Type) :=
| Value (a : A)
| Raises (error : py_error).
Arguments Value {A} a.
Arguments Raises {A} error.

Definition py_bind {A B} (m : py A) (k : A -> py B) : py B :=
  match m with
  | Value a => k a
  | Raises error => Raises error
  end.

Notation "x <- m ;; k" := (py_bind m (fun x => k))
  (at level 100, m at next level, right associativity).

Fixpoint py_mapM {A B} (f : A -> py B) (l : list A) : py (list B) :=
  match l with
  | [] => Value []
  | x :: rest =>
      y <- f x ;;
      ys <- py_mapM f rest ;;
      Value (y :: ys)
  end.

(** [obj.get(key, default)]: only a [dict] has the method. *)
Definition py_get (obj : json) (k : string) (dflt : json) : py json :=
  match obj with
  | JObject members => Value (default dflt (members !! k))
  | _ => Raises AttributeError
  end.

(** [key in container] for a string [key]: a key of a [dict], an element of
    a [list] equal to the string, or a substring of a [str]. *)
Definition py_contains (k : string) (container : json) : py bool :=
  match container with
  | JObject members =>
      Value (match members !! k with Some _ => true | None => false end)
  | JArray items =>
      Value (existsb (fun item => match item with
                                  | JString s => String.eqb k s
                                  | _ => false
                                  end) items)
  | JString s => Value (str_in k s)
  | _ => Raises TypeError
  end.

(** [len(v)] *)
Definition py_len (v : json) : py nat :=
  match v with
  | JArray items => Value (length items)
  | JString s => Value (String.length s)
  | JObject members => Value (size members)
  | _ => Raises TypeError
  end.

(** [v[0]]: the keys of a decoded [dict] are strings, so 0 is never one. *)
Definition py_first (v : json) : py json :=
  match v with
  | JArray (x :: _) => Value x
  | JArray [] => Raises IndexError
  | JString (String c _) => Value (JString (String c ""))
  | JString "" => Raises IndexError
  | JObject _ => Raises KeyError
  | _ => Raises TypeError
  end.

(** [v[key]] for a string [key] *)
Definition py_item (v : json) (k : string) : py json :=
  match v with
  | JObject members =>
      match members !! k with
      | Some x => Value x
      | None => Raises KeyError
      end
  | _ => Raises TypeError
  end.

(** [for x in v]: the elements of a [list], the characters of a [str], the
    keys of a [dict] (here in the order of the map, not of insertion: the
    loop body raises on any string, whichever comes first). *)
Definition py_iter (v : json) : py (list json) :=
  match v with
  | JArray items => Value items
  | JString s => Value (List.map (fun c => JString (String c "")) (list_ascii_of_string s))
  | JObject members => Value (List.map (fun entry => JString (fst entry)) (map_to_list members))
  | _ => Raises TypeError
  end.

(** [description and isinstance(description, dict)] *)
Definition nonempty_dict (v : json) : bool :=
  match v with
  | JObject members => negb (bool_decide (members = ∅))
  | _ => false
  end.

(** The text taken from the description field of an issue: the ["text"] of
    the first element of the ["content"] of the first element of its
    ["content"], when all of these are there, and the empty string if not. *)
Definition description_text_of (description : json) : py json :=
  if nonempty_dict description then
    has_content <- py_contains "content" description ;;
    if has_content then
      content <- py_item description "content" ;;
      n <- py_len content ;;
      if (0 <? n)%nat then
        first_paragraph <- py_first content ;;
        has_inner <- py_contains "content" first_paragraph ;;
        if has_inner then
          inner <- py_item first_paragraph "content" ;;
          m <- py_len inner ;;
          if (0 <? m)%nat then
            first_text_element <- py_first inner ;;
            has_text <- py_contains "text" first_text_element ;;
            if has_text then py_item first_text_element "text"
            else Value (JString "")
          else Value (JString "")
        else Value (JString "")
      else Value (JString "")
    else Value (JString "")
  else Value (JString "").

(** The dictionary appended to [formatted_issues]. *)
Record FormattedIssue := {
  fi_key : json;
  fi_summary : json;
  fi_description : json
}.

(** The body of the loop over the issues. *)
Definition format_issue (issue : json) : py FormattedIssue :=
  fields <- py_get issue "fields" (JObject ∅) ;;
  summary <- py_get fields "summary" (JString "No summary") ;;
  description <- py_get fields "description" (JObject ∅) ;;
  description_text <- description_text_of description ;;
  issue_key <- py_item issue "key" ;;
  Value {| fi_key := issue_key; fi_summary := summary; fi_description := description_text |}.

(** What the search request does: the request, its status check or the
    decoding of the body raises a [RequestException], or the body is decoded. *)
Inductive fetch_result :=
| RequestFailed
| Fetched (body : json).

Definition search_payload (project_key : string) : json :=
  JObject {[ "jql" := JString ("project = " +:+ project_key +:+ " ORDER BY created DESC");
             "fields" := JArray [JString "summary"; JString "description"] ]}.

(** The endpoint: a [RequestException] becomes the error 500, any other
    exception leaves the function.  The result is what the function returns,
    before the framework checks it against the response model. *)
Definition get_issues (JIRA_DOMAIN : string) (post : string -> json -> fetch_result)
    (project_key : string) : py (http_result (list FormattedIssue)) :=
  let url := "https://" +:+ JIRA_DOMAIN +:+ "/rest/api/3/search" in
  match post url (search_payload project_key) with
  | RequestFailed => Value (HTTPException 500 "Failed to fetch issues")
  | Fetched body =>
      issues <- py_get body "issues" (JArray []) ;;
      items <- py_iter issues ;;
      formatted_issues <- py_mapM format_issue items ;;
      Value (Ok formatted_issues)
  end.

(** The dictionaries [update_tickets] builds, as decoded values. *)
Fixpoint adf_json (node : adf_node) : json :=
  match node with
  | adf_text text =>
      JObject {[ "type" := JString "text"; "text" := JString text ]}
  | adf_paragraph content =>
      JObject {[ "type" := JString "paragraph";
                 "content" := JArray (List.map adf_json content) ]}
  | adf_heading level content =>
      JObject {[ "type" := JString "heading";
                 "attrs" := JObject {[ "level" := JNumber (Z.of_nat level) ]};
                 "content" := JArray (List.map adf_json content) ]}
  | adf_listItem content =>
      JObject {[ "type" := JString "listItem";
                 "content" := JArray (List.map adf_json content) ]}
  | adf_bulletList content =>
      JObject {[ "type" := JString "bulletList";
                 "content" := JArray (List.map adf_json content) ]}
  | adf_doc version content =>
      JObject {[ "type" := JString "doc";
                 "version" := JNumber (Z.of_nat version);
                 "content" := JArray (List.map adf_json content) ]}
  end.


(** ** Sample inputs *)

Definition ticket_slow : Ticket :=
  {| key := "SHOP-1"; summary := "Checkout page is very slow"; description := None |}.

Definition ticket_dark : Ticket :=
  {| key := "SHOP-2"; summary := "Add dark mode";
     description := Some "Users ask for a dark theme" |}.

(** A model output in the format the prompt asks for. *)
Definition sample_output : string :=
  unlines
    [ "USER STORY:";
      "As a shopper, I want a fast checkout so that I can pay without waiting.";
      "";
      "ACCEPTANCE CRITERIA:";
      "1. Foo";
      "2. Bar";
      "";
      "TECHNICAL CONTEXT:";
      "The checkout page loads every asset before it renders." ].

(** A model that raises at its first call, answers [sample_output] at the
    second, and returns a response without text afterwards. *)
(** The criteria block of the specification's parsing example. *)
Definition criteria_block : string :=
  unlines ["ACCEPTANCE CRITERIA:"; "1. Foo"; "2. Bar"].

Definition ticket_bare : Ticket :=
  {| key := "SHOP-3"; summary := "Add dark mode"; description := None |}.

Definition sample_model (n : nat) (prompt : string) : generate_result :=
  match n with
  | 0 => Raised
  | 1 => Response (Some sample_output)
  | _ => Response None
  end.

(** A tracker that refuses the first request and accepts the others. *)
Definition sample_put (n : nat) (url : string) (payload : string * adf_node) : put_result :=
  match n with
  | 0 => PutRaised "404 Client Error"
  | _ => PutOk
  end.

Definition sample_rewritten : list RewrittenTicket :=
  rewrite_loop sample_model 0 [ticket_slow; ticket_dark].

(** The issues of a response of the tracker: one without a description,
    one without a summary. *)
Definition sample_issues : list json :=
  [ JObject {[ "key" := JString "SHOP-1";
               "fields" :=
                 JObject {[ "summary" := JString "Checkout page is very slow";
                            "description" := JNull ]} ]};
    JObject {[ "key" := JString "SHOP-2";
               "fields" :=
                 JObject {[ "description" :=
                              adf_json
                                (adf_doc 1
                                   [adf_paragraph
                                      [adf_text "Users ask for a dark theme"]]) ]} ]} ].

Definition sample_body : json := JObject {[ "issues" := JArray sample_issues ]}.

Definition sample_post (url : string) (payload : json) : fetch_result :=
  Fetched sample_body.

(** ** The string operations on small inputs *)

Example split_blank_ex :
  split nl2 ("a" +:+ nl2 +:+ nl1 +:+ "b") = ["a"; nl1 +:+ "b"].
Proof. reflexivity. Qed.

Example split_trailing_ex : split nl1 ("a" +:+ nl1) = ["a"; ""].
Proof. reflexivity. Qed.

Example replace_ex : replace "ab" "" "xabaabby" = "xaby".
Proof. reflexivity. Qed.

Example strip_ex : strip ("  a b " +:+ nl1) = "a b".
Proof. reflexivity. Qed.

Example re_sub_ex : re_sub_number "12.   Foo" = "Foo" /\ re_sub_number "12 Foo" = "12 Foo"
  /\ re_sub_number "1.2. x" = "2. x" /\ re_match_number "7." = true.
Proof. repeat split. Qed.

Example format_int_ex : format_int 0 = "0" /\ format_int 12 = "12".
Proof. split; reflexivity. Qed.

Example lower_ex : lower "Add Dark MODE 1" = "add dark mode 1".
Proof. reflexivity. Qed.

(** ** Strings: basic facts *)

Lemma app_String c s t : String c s +:+ t = String c (s +:+ t).
Proof. reflexivity. Qed.

Lemma app_empty_l s : "" +:+ s = s.
Proof. reflexivity. Qed.

Lemma app_empty_r s : s +:+ "" = s.
Proof. induction s as [|c s IH]; [reflexivity|]. rewrite app_String, IH. reflexivity. Qed.

Lemma app_assoc_str a b c : (a +:+ b) +:+ c = a +:+ (b +:+ c).
Proof.
  induction a as [|x a IH]; [reflexivity|].
  rewrite !app_String, IH. reflexivity.
Qed.

Lemma prefix_empty s : String.prefix "" s = true.
Proof. destruct s; reflexivity. Qed.

Lemma prefix_String a s b t :
  String.prefix (String a s) (String b t) = Ascii.eqb a b && String.prefix s t.
Proof.
  simpl. destruct (ascii_dec a b) as [->|Hne].
  - rewrite Ascii.eqb_refl. reflexivity.
  - apply Ascii.eqb_neq in Hne. rewrite Hne. reflexivity.
Qed.

Lemma prefix_app m s : String.prefix m (m +:+ s) = true.
Proof.
  induction m as [|c m IH]; [apply prefix_empty|].
  rewrite app_String, prefix_String, Ascii.eqb_refl, IH. reflexivity.
Qed.

Lemma str_in_unfold m s :
  str_in m s = String.prefix m s || match s with "" => false | String _ s' => str_in m s' end.
Proof. destruct s; reflexivity. Qed.

Lemma str_in_app_r m a b : str_in m b = true -> str_in m (a +:+ b) = true.
Proof.
  intros H. induction a as [|c a IH]; [exact H|].
  rewrite app_String, str_in_unfold, IH. apply orb_true_r.
Qed.

Lemma str_in_prefix m s : String.prefix m s = true -> str_in m s = true.
Proof. intros H. rewrite str_in_unfold, H. reflexivity. Qed.

Lemma str_in_middle m a b : str_in m (a +:+ m +:+ b) = true.
Proof. apply str_in_app_r, str_in_prefix, prefix_app. Qed.

(** ** The rewrite loop *)

Lemma rewrite_ticket_assemble generate_content ticket :
  rewrite_ticket generate_content ticket
  = assemble ticket (parsed_response_of (generate_content (prompt_for ticket)) ticket).
Proof.
  unfold rewrite_ticket, parsed_response_of, prompt_for, assemble.
  destruct (generate_content _) as [|[text|]]; simpl; try reflexivity.
  all: destruct (nonempty text); reflexivity.
Qed.

Lemma rewrite_loop_length model n tickets :
  length (rewrite_loop model n tickets) = length tickets.
Proof.
  revert n. induction tickets as [|t ts IH]; intros n; simpl; [reflexivity|].
  rewrite IH. reflexivity.
Qed.

Lemma rewrite_loop_lookup model tickets : forall n i,
  rewrite_loop model n tickets !! i
  = (fun ticket => rewrite_ticket (model (n + i)) ticket) <$> tickets !! i.
Proof.
  induction tickets as [|t ts IH]; intros n i; [reflexivity|].
  destruct i as [|i]; simpl.
  - rewrite Nat.add_0_r. reflexivity.
  - rewrite IH. replace (S n + i) with (n + S i) by lia. reflexivity.
Qed.

Lemma rewrite_tickets_Ok_inv model tickets out :
  rewrite_tickets model tickets = Ok out -> out = rewrite_loop model 0 tickets.
Proof.
  unfold rewrite_tickets. destruct (rewrite_loop model 0 tickets); [discriminate|].
  intros [= <-]. reflexivity.
Qed.

Lemma rewrite_tickets_nonempty model tickets :
  tickets <> [] -> rewrite_tickets model tickets = Ok (rewrite_loop model 0 tickets).
Proof.
  destruct tickets as [|t ts]; [congruence|]. reflexivity.
Qed.

Lemma rewrite_tickets_lookup model tickets out i r :
  rewrite_tickets model tickets = Ok out ->
  out !! i = Some r ->
  exists ticket, tickets !! i = Some ticket /\
    r = assemble ticket (parsed_response_of (model i (prompt_for ticket)) ticket).
Proof.
  intros Hok Hr. apply rewrite_tickets_Ok_inv in Hok. subst out.
  rewrite rewrite_loop_lookup in Hr.
  destruct (tickets !! i) as [ticket|]; [|discriminate].
  exists ticket. split; [reflexivity|].
  simpl in Hr. injection Hr as <-. apply rewrite_ticket_assemble.
Qed.



Lemma or_list_nonempty {A} (x d : list A) : d <> [] -> or_list x d <> [].
Proof. destruct x; simpl; [auto|discriminate]. Qed.

Lemma or_str_nonempty x d : d <> "" -> or_str x d <> "".
Proof. unfold or_str. destruct x; simpl; [auto|discriminate]. Qed.

Lemma fallback_criteria ticket_data :
  pr_acceptance_criteria (_generate_better_fallback_response ticket_data) = performance_criteria
  \/ pr_acceptance_criteria (_generate_better_fallback_response ticket_data) = generic_criteria.
Proof.
  unfold _generate_better_fallback_response.
  destruct (is_performance_issue _ _); [left|right]; reflexivity.
Qed.




(** C3: for a non-empty batch the endpoint returns a list, never an error,
    with one rewritten ticket per input ticket in the input order; the
    rewritten ticket of a ticket whose model call raised or gave no text is
    built from the fallback response for that ticket's summary and
    description, whatever the calls for the other tickets did. *)
Theorem model_failure_falls_back model tickets :
  tickets <> [] ->
  exists out, rewrite_tickets model tickets = Ok out /\
    length out = length tickets /\
    forall i ticket, tickets !! i = Some ticket ->
      exists r, out !! i = Some r /\ rt_key r = key ticket /\
        (model_failed (model i (prompt_for ticket)) = true ->
         r = assemble ticket
               (_generate_better_fallback_response
                  {[ "summary" := summary ticket;
                     "description" := default "" (description ticket) ]})).
Proof.
  intros Hne. exists (rewrite_loop model 0 tickets).
  split; [apply rewrite_tickets_nonempty, Hne|].
  split; [apply rewrite_loop_length|].
  intros i ticket Ht. exists (rewrite_ticket (model i) ticket).
  rewrite rewrite_loop_lookup, Ht. split; [reflexivity|].
  rewrite rewrite_ticket_assemble. split; [reflexivity|].
  intros Hfail. unfold parsed_response_of. rewrite Hfail. reflexivity.
Qed.

Lemma model_failure_falls_back_witness :
  exists out, rewrite_tickets sample_model [ticket_slow; ticket_dark] = Ok out /\
    length out = 2 /\
    out !! 0 = Some (assemble ticket_slow
                       (_generate_better_fallback_response (ticket_dict ticket_slow))).
Proof.
  destruct (model_failure_falls_back sample_model [ticket_slow; ticket_dark])
    as (out & Hok & Hlen & Hall); [discriminate|].
  exists out. split; [exact Hok|]. split; [exact Hlen|].
  destruct (Hall 0 ticket_slow) as (r & Hr & _ & Hfb); [reflexivity|].
  rewrite Hr. f_equal. apply Hfb. reflexivity.
Defined.

(** C6: in every rewritten ticket the endpoint returns, the original title
    is the summary of the input ticket, the rewritten title is the user story
    of the parsed response, and the rewritten description is that user story,
    two line feeds, and the technical context of the parsed response. *)
Theorem rewritten_ticket_fields model tickets out i r :
  rewrite_tickets model tickets = Ok out ->
  out !! i = Some r ->
  exists ticket, tickets !! i = Some ticket /\
    let parsed_response := parsed_response_of (model i (prompt_for ticket)) ticket in
    rt_key r = key ticket /\
    original_title r = summary ticket /\
    rewritten_title r = user_story parsed_response /\
    rewritten_description r
    = user_story parsed_response +:+ String LF (String LF "")
      +:+ pr_technical_context parsed_response /\
    technical_context r = pr_technical_context parsed_response.
Proof.
  intros Hok Hr.
  destruct (rewrite_tickets_lookup _ _ _ _ _ Hok Hr) as (ticket & Ht & ->).
  exists ticket. split; [exact Ht|]. repeat split.
Qed.

Lemma rewritten_ticket_fields_witness :
  original_title (rewrite_ticket (sample_model 1) ticket_dark) = "Add dark mode" /\
  rewritten_description (rewrite_ticket (sample_model 1) ticket_dark)
  = "As a shopper, I want a fast checkout so that I can pay without waiting."
    +:+ nl2 +:+ "The checkout page loads every asset before it renders.".
Proof.
  destruct (rewritten_ticket_fields sample_model [ticket_slow; ticket_dark]
              (rewrite_loop sample_model 0 [ticket_slow; ticket_dark]) 1
              (rewrite_ticket (sample_model 1) ticket_dark))
    as (ticket & Ht & _ & Ho & _ & Hd & _); [reflexivity | reflexivity |].
  injection Ht as <-. split; [exact Ho|]. rewrite Hd. vm_compute. reflexivity.
Defined.

(** ** The response parser: defaults *)

Lemma filter_nonempty_Forall (l : list string) :
  Forall (fun s => s <> "") (List.filter nonempty l).
Proof.
  induction l as [|s l IH]; simpl; [constructor|].
  destruct s; simpl; [exact IH|]. constructor; [discriminate|exact IH].
Qed.

Lemma or_str_default x d : x = "" -> or_str x d = d.
Proof. intros ->. reflexivity. Qed.

Lemma or_str_given x d : x <> "" -> or_str x d = x.
Proof. destruct x; [congruence|reflexivity]. Qed.

(** C2: the parser is a total function; when the loop captured no
    criterion the criteria are the one default sentence without its number,
    an empty captured user story or technical context is replaced by its
    default sentence, and in the result the user story, the technical context,
    the list of criteria and each criterion are non-empty. *)
Theorem parse_defaults response_text :
  let captured := parse_sections response_text in
  let result := _parse_ai_response response_text in
  (st_acceptance_criteria captured = [] ->
   pr_acceptance_criteria result = ["The functionality should work as expected."]) /\
  (st_user_story captured = "" ->
   user_story result
   = "As a user, I want this issue resolved so that I can work efficiently.") /\
  (st_technical_context captured = "" ->
   pr_technical_context result
   = "This ticket addresses a technical issue that impacts user experience.") /\
  (st_user_story captured <> "" -> user_story result = st_user_story captured) /\
  (st_technical_context captured <> "" ->
   pr_technical_context result = st_technical_context captured) /\
  user_story result <> "" /\
  pr_acceptance_criteria result <> [] /\
  Forall (fun criterion => criterion <> "") (pr_acceptance_criteria result) /\
  pr_technical_context result <> "".
Proof.
  intros captured result. subst result. unfold _parse_ai_response. fold captured.
  unfold parse_finish. simpl.
  repeat split.
  - intros ->. reflexivity.
  - apply or_str_default.
  - apply or_str_default.
  - apply or_str_given.
  - apply or_str_given.
  - apply or_str_nonempty. discriminate.
  - apply or_list_nonempty. discriminate.
  - set (formatted := List.filter nonempty _).
    pose proof (filter_nonempty_Forall
                  (List.map re_sub_number
                     (or_list (st_acceptance_criteria captured)
                        ["1. " +:+ default_criterion]))) as HF.
    fold formatted in HF. destruct formatted; simpl; [|exact HF].
    constructor; [discriminate|constructor].
  - apply or_str_nonempty. discriminate.
Qed.

Lemma parse_defaults_witness :
  pr_acceptance_criteria (_parse_ai_response "no sections here")
  = ["The functionality should work as expected."] /\
  user_story (_parse_ai_response "no sections here")
  = "As a user, I want this issue resolved so that I can work efficiently." /\
  pr_technical_context (_parse_ai_response "no sections here")
  = "This ticket addresses a technical issue that impacts user experience." /\
  user_story (_parse_ai_response sample_output)
  = "As a shopper, I want a fast checkout so that I can pay without waiting.".
Proof.
  destruct (parse_defaults "no sections here") as (Hc & Hu & Ht & _).
  destruct (parse_defaults sample_output) as (_ & _ & _ & Hkeep & _).
  split; [apply Hc; reflexivity|].
  split; [apply Hu; reflexivity|].
  split; [apply Ht; reflexivity|].
  rewrite Hkeep; [reflexivity|discriminate].
Defined.

(** ** The fallback generator *)


(** The two examples of the specification. *)
Example fallback_slow_checkout :
  str_in "performance issues"
    (pr_technical_context
       (_generate_better_fallback_response (ticket_dict ticket_slow))) = true
  /\ pr_acceptance_criteria (_generate_better_fallback_response (ticket_dict ticket_slow))
     = performance_criteria.
Proof. split; vm_compute; reflexivity. Qed.

Example fallback_dark_mode :
  pr_acceptance_criteria
    (_generate_better_fallback_response {[ "summary" := "Add dark mode"; "description" := "" ]})
  = generic_criteria.
Proof. vm_compute. reflexivity. Qed.

(** C8: numbering the criteria of a fallback response and numbering the
    result again gives the same list as numbering once. *)
Theorem renumber_fallback_idempotent (ticket_data : gmap string string) :
  let criteria := pr_acceptance_criteria (_generate_better_fallback_response ticket_data) in
  numbered_criteria (numbered_criteria criteria) = numbered_criteria criteria.
Proof.
  intros criteria. subst criteria.
  destruct (fallback_criteria ticket_data) as [-> | ->]; vm_compute; reflexivity.
Qed.

(** Numbering twice is not the same as numbering once on every list: a
    criterion that starts with a blank keeps it the first time only. *)
Example renumber_not_idempotent :
  numbered_criteria (numbered_criteria [" x"]) <> numbered_criteria [" x"].
Proof. vm_compute. discriminate. Qed.

(** ** The document of the update request *)

Lemma flat_map_kept {A B} (keep : A -> bool) (f : A -> B) (l : list A) :
  flat_map (fun x => if keep x then [f x] else []) l = List.map f (List.filter keep l).
Proof.
  induction l as [|x l IH]; simpl; [reflexivity|].
  destruct (keep x); simpl; rewrite IH; reflexivity.
Qed.

Lemma adf_content_blocks ticket :
  adf_content ticket
  = List.map paragraph_block (description_paragraphs (rewritten_description ticket))
    ++ [heading_block; adf_bulletList (List.map list_item (acceptance_criteria ticket))].
Proof.
  unfold adf_content, description_paragraphs.
  rewrite (flat_map_kept (fun para => nonempty (strip para)) paragraph_block).
  reflexivity.
Qed.

(** C7: the content of the document is one paragraph block, holding the
    stripped text, for each piece of the description between blank lines that
    is not blank, then the heading block "Acceptance Criteria", then one
    bulleted list with one item per criterion, holding the criterion as it
    is; with two such paragraphs and three criteria these are two paragraph
    blocks, the heading and a list of three items, and nothing else. *)
Theorem document_blocks (ticket : RewrittenTicket) :
  let paragraphs := description_paragraphs (rewritten_description ticket) in
  let criteria := acceptance_criteria ticket in
  adf_content ticket
  = List.map (fun para => adf_paragraph [adf_text (strip para)]) paragraphs
    ++ [ adf_heading 2 [adf_text "Acceptance Criteria"];
         adf_bulletList
           (List.map (fun criterion => adf_listItem [adf_paragraph [adf_text criterion]])
              criteria) ]
  /\ update_payload ticket = (rewritten_title ticket, adf_doc 1 (adf_content ticket))
  /\ (length paragraphs = 2 -> length criteria = 3 ->
      exists p1 p2 c1 c2 c3,
        paragraphs = [p1; p2] /\ criteria = [c1; c2; c3] /\
        adf_content ticket
        = [ adf_paragraph [adf_text (strip p1)];
            adf_paragraph [adf_text (strip p2)];
            adf_heading 2 [adf_text "Acceptance Criteria"];
            adf_bulletList
              [ adf_listItem [adf_paragraph [adf_text c1]];
                adf_listItem [adf_paragraph [adf_text c2]];
                adf_listItem [adf_paragraph [adf_text c3]] ] ]).
Proof.
  intros paragraphs criteria.
  pose proof (adf_content_blocks ticket) as Hblocks.
  fold paragraphs criteria in Hblocks.
  split; [exact Hblocks|]. split; [reflexivity|].
  intros Hp Hc.
  destruct paragraphs as [|p1 [|p2 [|? ?]]]; try discriminate.
  destruct criteria as [|c1 [|c2 [|c3 [|? ?]]]]; try discriminate.
  exists p1, p2, c1, c2, c3. split; [reflexivity|]. split; [reflexivity|].
  exact Hblocks.
Qed.

Lemma document_blocks_witness :
  adf_content
    {| rt_key := "SHOP-2"; original_title := "Add dark mode";
       rewritten_title := "Story";
       rewritten_description := " Story " +:+ nl2 +:+ "  " +:+ nl2 +:+ "Context";
       acceptance_criteria := ["1. Foo"; "2. Bar"; "3. Baz"];
       technical_context := "Context" |}
  = [ adf_paragraph [adf_text "Story"];
      adf_paragraph [adf_text "Context"];
      adf_heading 2 [adf_text "Acceptance Criteria"];
      adf_bulletList
        [ adf_listItem [adf_paragraph [adf_text "1. Foo"]];
          adf_listItem [adf_paragraph [adf_text "2. Bar"]];
          adf_listItem [adf_paragraph [adf_text "3. Baz"]] ] ].
Proof.
  match goal with |- adf_content ?t = _ =>
    destruct (document_blocks t) as (_ & _ & H) end.
  destruct H as (p1 & p2 & c1 & c2 & c3 & Hp & Hc & ->); [reflexivity | reflexivity |].
  vm_compute in Hp. vm_compute in Hc.
  injection Hp as <- <-. injection Hc as <- <- <-.
  vm_compute. reflexivity.
Defined.

(** ** The prompt *)

Lemma ticket_dict_summary ticket :
  ticket_dict ticket !! "summary" = Some (summary ticket).
Proof. unfold ticket_dict. apply lookup_insert_eq. Qed.

Lemma ticket_dict_description ticket :
  ticket_dict ticket !! "description" = Some (default "" (description ticket)).
Proof.
  unfold ticket_dict. rewrite lookup_insert_ne by discriminate.
  apply lookup_singleton_eq.
Qed.

(** C9, as stated, fails: the prompt of a ticket without a description is
    not the template filled with "No Description", and the words do not
    occur in it. *)
Lemma prompt_no_description_counterexample :
  description ticket_bare = None /\
  prompt_for ticket_bare
  <> prompt_intro +:+ "Add dark mode" +:+ prompt_between +:+ "No Description"
     +:+ prompt_instructions /\
  str_in "No Description" (prompt_for ticket_bare) = false.
Proof.
  split; [reflexivity|]. split.
  - apply String.eqb_neq. vm_compute. reflexivity.
  - vm_compute. reflexivity.
Qed.

(** C9, amended: the prompt builder puts "No Description" in the place of
    the description when its dictionary has no description entry, and
    "No Title" in the place of the summary when it has no summary entry; the
    rewrite loop always passes both entries, an absent description as the
    empty string, so the prompt of a ticket without a description holds the
    empty string in that place. *)
Theorem prompt_defaults (ticket_data : gmap string string) (ticket : Ticket) :
  (ticket_data !! "description" = None ->
   _create_prompt ticket_data
   = prompt_intro +:+ default "No Title" (ticket_data !! "summary")
     +:+ prompt_between +:+ "No Description" +:+ prompt_instructions) /\
  (ticket_data !! "summary" = None ->
   _create_prompt ticket_data
   = prompt_intro +:+ "No Title"
     +:+ prompt_between +:+ default "No Description" (ticket_data !! "description")
     +:+ prompt_instructions) /\
  prompt_for ticket
  = prompt_intro +:+ summary ticket
    +:+ prompt_between +:+ default "" (description ticket) +:+ prompt_instructions /\
  (description ticket = None ->
   prompt_for ticket
   = prompt_intro +:+ summary ticket +:+ prompt_between +:+ "" +:+ prompt_instructions).
Proof.
  assert (Hp : prompt_for ticket
               = prompt_intro +:+ summary ticket
                 +:+ prompt_between +:+ default "" (description ticket)
                 +:+ prompt_instructions).
  { unfold prompt_for, _create_prompt.
    rewrite ticket_dict_summary, ticket_dict_description. reflexivity. }
  unfold _create_prompt. split; [|split; [|split]].
  - intros ->. reflexivity.
  - intros ->. reflexivity.
  - exact Hp.
  - intros Hd. rewrite Hp, Hd. reflexivity.
Qed.

Lemma prompt_defaults_witness :
  _create_prompt {[ "summary" := "Add dark mode" ]}
  = prompt_intro +:+ "Add dark mode" +:+ prompt_between +:+ "No Description"
    +:+ prompt_instructions /\
  _create_prompt {[ "description" := "Users ask for a dark theme" ]}
  = prompt_intro +:+ "No Title" +:+ prompt_between +:+ "Users ask for a dark theme"
    +:+ prompt_instructions /\
  prompt_for ticket_bare
  = prompt_intro +:+ "Add dark mode" +:+ prompt_between +:+ "" +:+ prompt_instructions.
Proof.
  split; [|split].
  - destruct (prompt_defaults {[ "summary" := "Add dark mode" ]} ticket_bare)
      as (H & _). apply H. reflexivity.
  - destruct (prompt_defaults {[ "description" := "Users ask for a dark theme" ]} ticket_bare)
      as (_ & H & _). apply H. reflexivity.
  - destruct (prompt_defaults ∅ ticket_bare) as (_ & _ & _ & H). apply H. reflexivity.
Defined.

(** ** The fallback generator and the case of the summary *)

(** [lower_char] changes every upper-case letter, and what it returns is
    never one: checked on each of the 256 characters. *)
Lemma lower_char_upper c : isupper c = true -> lower_char c <> c.
Proof.
  destruct c as [[|] [|] [|] [|] [|] [|] [|] [|]]; intros H;
    try discriminate H; vm_compute; discriminate.
Qed.

Lemma lower_char_not_upper c : isupper (lower_char c) = false.
Proof. destruct c as [[|] [|] [|] [|] [|] [|] [|] [|]]; reflexivity. Qed.

Lemma lower_changes s : has_upper s = true -> lower s <> s.
Proof.
  induction s as [|c s IH]; cbn [has_upper lower]; [discriminate|].
  intros Hup [= Hc Hs].
  destruct (isupper c) eqn:E.
  - exact (lower_char_upper c E Hc).
  - exact (IH Hup Hs).
Qed.

Lemma lower_has_no_upper s : has_upper (lower s) = false.
Proof.
  induction s as [|c s IH]; [reflexivity|].
  cbn [lower has_upper]. rewrite lower_char_not_upper, IH. reflexivity.
Qed.

(** C10, as stated, fails: for a summary with an upper-case letter and no
    performance keyword, the technical context returned does not contain the
    lower-cased summary. *)
Lemma fallback_context_counterexample :
  let result :=
    _generate_better_fallback_response
      {[ "summary" := "Add dark mode"; "description" := "" ]} in
  has_upper "Add dark mode" = true /\
  str_in (lower "Add dark mode") (user_story result) = true /\
  str_in (lower "Add dark mode") (pr_technical_context result) = false.
Proof. vm_compute. repeat split. Qed.

(** The user story can contain the summary in its original casing as well:
    the template itself starts with an upper-case letter. *)
Example fallback_story_contains_original :
  str_in "A" (user_story (_generate_better_fallback_response {[ "summary" := "A" ]})) = true.
Proof. vm_compute. reflexivity. Qed.

(** C10, amended: the user story the fallback generator returns is one of
    its two templates with the lower-cased summary in the place of the
    summary, so it contains the lower-cased summary; the technical context is
    such a template only when a performance keyword occurs, and is the fixed
    generic sentence otherwise; the text put in differs from the summary
    whenever the summary has one of the upper-case letters A to Z or of the
    Latin-1 block (0xC0 to 0xDE without the multiplication sign), and none of
    these letters is left in it. *)
Theorem fallback_embeds_lowered_summary (ticket_data : gmap string string) :
  let original := default "No Title" (ticket_data !! "summary") in
  let description := lower (default "" (ticket_data !! "description")) in
  let result := _generate_better_fallback_response ticket_data in
  (user_story result
   = "As a user, I want the " +:+ lower original +:+
     " to respond quickly so that I can complete my tasks efficiently without frustration."
   \/ user_story result
      = "As a user, I want to " +:+ lower original +:+
        " so that I can achieve my goals efficiently.") /\
  str_in (lower original) (user_story result) = true /\
  (is_performance_issue (lower original) description = true ->
   pr_technical_context result
   = "The " +:+ lower original +:+
     " is experiencing performance issues that negatively impact user experience. This could be due to inefficient code, excessive network requests, unoptimized assets, or server-side bottlenecks. Fixing this will improve user satisfaction and potentially increase conversion rates."
   /\ str_in (lower original) (pr_technical_context result) = true) /\
  (is_performance_issue (lower original) description = false ->
   pr_technical_context result
   = "This ticket addresses a technical issue that impacts user experience and business goals. Proper implementation will ensure system reliability and user satisfaction.") /\
  (has_upper original = true -> lower original <> original) /\
  has_upper (lower original) = false.
Proof.
  intros original description result. subst result.
  unfold _generate_better_fallback_response. fold original description.
  destruct (is_performance_issue (lower original) description);
    cbn [user_story pr_technical_context].
  - split; [left; reflexivity|]. split; [apply str_in_middle|].
    split; [|split; [discriminate|split; [apply lower_changes|apply lower_has_no_upper]]].
    intros _. split; [reflexivity|apply str_in_middle].
  - split; [right; reflexivity|]. split; [apply str_in_middle|].
    split; [discriminate|].
    split; [reflexivity|split; [apply lower_changes|apply lower_has_no_upper]].
Qed.

Lemma fallback_embeds_lowered_summary_witness :
  pr_technical_context (_generate_better_fallback_response (ticket_dict ticket_slow))
  = "The checkout page is very slow is experiencing performance issues that negatively impact user experience. This could be due to inefficient code, excessive network requests, unoptimized assets, or server-side bottlenecks. Fixing this will improve user satisfaction and potentially increase conversion rates."
  /\ lower "Checkout page is very slow" <> "Checkout page is very slow"
  /\ pr_technical_context (_generate_better_fallback_response (ticket_dict ticket_dark))
     = generic_technical_context.
Proof.
  destruct (fallback_embeds_lowered_summary (ticket_dict ticket_slow))
    as (_ & _ & Hperf & _ & Hup & _).
  destruct (fallback_embeds_lowered_summary (ticket_dict ticket_dark))
    as (_ & _ & _ & Hgen & _).
  split; [|split].
  - destruct Hperf as [-> _]; reflexivity.
  - apply Hup. reflexivity.
  - apply Hgen. reflexivity.
Defined.

(** ** Strings: occurrences, stripping, replacing and splitting *)

Lemma str_in_cons_false m c s :
  String.prefix m (String c s) = false -> str_in m (String c s) = str_in m s.
Proof. intros H. rewrite str_in_unfold, H. reflexivity. Qed.

Lemma str_in_cons_inv m c s :
  str_in m (String c s) = false ->
  String.prefix m (String c s) = false /\ str_in m s = false.
Proof. rewrite str_in_unfold. apply orb_false_elim. Qed.

Lemma prefix_app_l m a b : String.prefix m a = true -> String.prefix m (a +:+ b) = true.
Proof.
  revert a. induction m as [|x m IH]; intros a H; [apply prefix_empty|].
  destruct a as [|y a]; [discriminate|].
  rewrite app_String. rewrite prefix_String in *.
  apply andb_true_iff in H as [-> H]. rewrite (IH _ H). reflexivity.
Qed.

Lemma str_in_app_l m a b : str_in m a = true -> str_in m (a +:+ b) = true.
Proof.
  induction a as [|c a IH]; intros H.
  - destruct m; [|discriminate]. apply str_in_prefix, prefix_empty.
  - rewrite app_String, str_in_unfold. rewrite str_in_unfold in H.
    apply orb_true_iff in H as [H|H].
    + pose proof (prefix_app_l _ (String c a) b H) as Hp.
      rewrite app_String in Hp. rewrite Hp. reflexivity.
    + rewrite (IH H). apply orb_true_r.
Qed.

Lemma rstrip_cons c s :
  rstrip (String c s)
  = if nonempty (rstrip s) || negb (isspace c) then String c (rstrip s) else "".
Proof. simpl. destruct (rstrip s), (isspace c); reflexivity. Qed.

Lemma rstrip_idem s : rstrip (rstrip s) = rstrip s.
Proof.
  induction s as [|c s IH]; [reflexivity|].
  rewrite rstrip_cons.
  destruct (nonempty (rstrip s) || negb (isspace c)) eqn:E; [|reflexivity].
  rewrite rstrip_cons, IH, E. reflexivity.
Qed.

Lemma lstrip_cons c s : lstrip (String c s) = if isspace c then lstrip s else String c s.
Proof. reflexivity. Qed.

Lemma lstrip_rstrip s : lstrip (rstrip s) = rstrip (lstrip s).
Proof.
  induction s as [|c s IH]; [reflexivity|].
  rewrite rstrip_cons, (lstrip_cons c s).
  destruct (isspace c) eqn:Hc.
  - rewrite orb_false_r. destruct (nonempty (rstrip s)) eqn:E.
    + rewrite lstrip_cons, Hc. exact IH.
    + rewrite <- IH. destruct (rstrip s); [reflexivity|discriminate].
  - rewrite orb_true_r, lstrip_cons, Hc.
    rewrite rstrip_cons, Hc, orb_true_r. reflexivity.
Qed.

Lemma strip_rstrip s : strip (rstrip s) = strip s.
Proof. unfold strip. rewrite lstrip_rstrip, rstrip_idem. reflexivity. Qed.

Lemma rstrip_app a b : rstrip a = a -> rstrip (a +:+ b) = a +:+ rstrip b.
Proof.
  induction a as [|c a IH]; intros Ha; [reflexivity|].
  rewrite !app_String, rstrip_cons. rewrite rstrip_cons in Ha.
  destruct (nonempty (rstrip a) || negb (isspace c)) eqn:E; [|discriminate].
  injection Ha as Ha. rewrite (IH Ha).
  destruct a as [|d a].
  - simpl in E. rewrite app_empty_l. rewrite E, orb_true_r. reflexivity.
  - reflexivity.
Qed.

Lemma rstrip_is_prefix s : exists w, s = rstrip s +:+ w.
Proof.
  induction s as [|c s [w IH]]; [exists ""; reflexivity|].
  rewrite rstrip_cons.
  destruct (nonempty (rstrip s) || negb (isspace c)).
  - exists w. rewrite app_String, <- IH. reflexivity.
  - exists (String c s). reflexivity.
Qed.

Lemma str_in_rstrip_false m s : str_in m s = false -> str_in m (rstrip s) = false.
Proof.
  intros H. destruct (str_in m (rstrip s)) eqn:E; [|reflexivity].
  destruct (rstrip_is_prefix s) as [w Hw].
  rewrite Hw, (str_in_app_l _ _ w E) in H. discriminate.
Qed.

Lemma strip_nonempty_rstrip s : strip s <> "" -> rstrip s <> "".
Proof.
  intros H E. apply H. rewrite <- strip_rstrip, E. reflexivity.
Qed.

Lemma replace_from_skip old new a s :
  replace_from old new (String.length a) (a +:+ s) = replace_from old new 0 s.
Proof.
  induction a as [|c a IH]; [destruct s; reflexivity|].
  rewrite app_String. simpl. exact IH.
Qed.

Lemma replace_prefix c old new s :
  replace (String c old) new (String c old +:+ s) = new +:+ replace (String c old) new s.
Proof.
  unfold replace. rewrite app_String.
  change (replace_from (String c old) new 0 (String c (old +:+ s)))
    with (if String.prefix (String c old) (String c (old +:+ s))
          then new +:+ replace_from (String c old) new (String.length (String c old) - 1)
                         (old +:+ s)
          else String c (replace_from (String c old) new 0 (old +:+ s))).
  rewrite <- app_String, prefix_app.
  replace (String.length (String c old) - 1) with (String.length old) by (simpl; lia).
  rewrite replace_from_skip. reflexivity.
Qed.

Lemma replace_absent old new s : str_in old s = false -> replace old new s = s.
Proof.
  unfold replace. induction s as [|c s IH]; intros H; [reflexivity|].
  apply str_in_cons_inv in H as [Hp Hs].
  change (replace_from old new 0 (String c s))
    with (if String.prefix old (String c s)
          then new +:+ replace_from old new (String.length old - 1) s
          else String c (replace_from old new 0 s)).
  rewrite Hp, (IH Hs). reflexivity.
Qed.

Lemma split_from_cons sep c s :
  split_from sep 0 (String c s)
  = if String.prefix sep (String c s)
    then "" :: split_from sep (String.length sep - 1) s
    else cons_head c (split_from sep 0 s).
Proof. reflexivity. Qed.

(** Splitting at blank lines: a piece ends at the first two line feeds. *)
Lemma split_nl2_app a b :
  str_in nl2 (a +:+ nl1) = false -> split nl2 (a +:+ nl2 +:+ b) = a :: split nl2 b.
Proof.
  unfold split. induction a as [|c a IH]; intros H.
  - destruct b; reflexivity.
  - rewrite app_String in *. apply str_in_cons_inv in H as [Hp Hs].
    rewrite split_from_cons.
    assert (Hp' : String.prefix nl2 (String c (a +:+ nl2 +:+ b)) = false).
    { unfold nl2 in *. rewrite prefix_String in *.
      destruct (Ascii.eqb LF c); [|reflexivity]. simpl in *.
      destruct a as [|d a]; [discriminate|].
      rewrite app_String in *. rewrite prefix_String in *.
      rewrite prefix_empty in *. exact Hp. }
    rewrite Hp', (IH Hs). reflexivity.
Qed.

Lemma split_nl2_none b : str_in nl2 b = false -> split nl2 b = [b].
Proof.
  unfold split. induction b as [|c b IH]; intros H; [reflexivity|].
  apply str_in_cons_inv in H as [Hp Hs].
  rewrite split_from_cons, Hp, (IH Hs). reflexivity.
Qed.

(** Passing over the known characters in front of an unknown text. *)
Ltac skip_known :=
  rewrite ?app_String, ?app_empty_l;
  repeat (rewrite str_in_cons_false by reflexivity).

(** ** The response parser on the three sections *)

Lemma parse_user_story_block st story :
  str_in "USER STORY:" story = false ->
  parse_section st ("USER STORY:" +:+ story)
  = {| current_section := Some in_user_story;
       st_user_story := strip story;
       st_acceptance_criteria := st_acceptance_criteria st;
       st_technical_context := st_technical_context st |}.
Proof.
  intros Hm. unfold parse_section.
  assert (Hs : strip ("USER STORY:" +:+ story) = "USER STORY:" +:+ rstrip story).
  { unfold strip. rewrite app_String, lstrip_cons. simpl isspace. cbv iota.
    rewrite <- app_String. apply rstrip_app. reflexivity. }
  rewrite Hs.
  rewrite (str_in_prefix "USER STORY:" _ (prefix_app _ _)).
  rewrite replace_prefix, app_empty_l.
  rewrite (replace_absent _ _ _ (str_in_rstrip_false _ _ Hm)), strip_rstrip.
  reflexivity.
Qed.

Lemma parse_criteria_block st :
  parse_section st criteria_block
  = {| current_section := Some in_acceptance_criteria;
       st_user_story := st_user_story st;
       st_acceptance_criteria := st_acceptance_criteria st ++ ["1. Foo"; "2. Bar"];
       st_technical_context := st_technical_context st |}.
Proof. reflexivity. Qed.

Lemma parse_technical_context_block st context :
  str_in "USER STORY:" context = false ->
  str_in "ACCEPTANCE CRITERIA:" context = false ->
  str_in "TECHNICAL CONTEXT:" context = false ->
  parse_section st ("TECHNICAL CONTEXT:" +:+ context)
  = {| current_section := Some in_technical_context;
       st_user_story := st_user_story st;
       st_acceptance_criteria := st_acceptance_criteria st;
       st_technical_context := strip context |}.
Proof.
  intros Hu Ha Ht. unfold parse_section.
  assert (Hs : strip ("TECHNICAL CONTEXT:" +:+ context)
               = "TECHNICAL CONTEXT:" +:+ rstrip context).
  { unfold strip. rewrite app_String, lstrip_cons. simpl isspace. cbv iota.
    rewrite <- app_String. apply rstrip_app. reflexivity. }
  rewrite Hs.
  assert (Hu' : str_in "USER STORY:" ("TECHNICAL CONTEXT:" +:+ rstrip context) = false).
  { skip_known. apply str_in_rstrip_false, Hu. }
  assert (Ha' : str_in "ACCEPTANCE CRITERIA:" ("TECHNICAL CONTEXT:" +:+ rstrip context) = false).
  { skip_known. apply str_in_rstrip_false, Ha. }
  rewrite Hu', Ha'.
  rewrite (str_in_prefix "TECHNICAL CONTEXT:" _ (prefix_app _ _)).
  rewrite replace_prefix, app_empty_l.
  rewrite (replace_absent _ _ _ (str_in_rstrip_false _ _ Ht)), strip_rstrip.
  reflexivity.
Qed.

(** The three blocks when the story does not end in a line feed, so that
    the first two line feeds after it are the separator. *)
Lemma parse_three_blocks (story context : string) :
  str_in nl2 (story +:+ nl1) = false ->
  str_in "USER STORY:" story = false ->
  strip story <> "" ->
  str_in nl2 context = false ->
  str_in "USER STORY:" context = false ->
  str_in "ACCEPTANCE CRITERIA:" context = false ->
  str_in "TECHNICAL CONTEXT:" context = false ->
  strip context <> "" ->
  _parse_ai_response
    ("USER STORY:" +:+ story +:+ nl2 +:+
     "ACCEPTANCE CRITERIA:" +:+ nl1 +:+ "1. Foo" +:+ nl1 +:+ "2. Bar" +:+ nl2 +:+
     "TECHNICAL CONTEXT:" +:+ context)
  = {| user_story := strip story;
       pr_acceptance_criteria := ["Foo"; "Bar"];
       pr_technical_context := strip context |}.
Proof.
  intros Hsb Hsu Hsn Hcb Hcu Hca Hct Hcn.
  change ("ACCEPTANCE CRITERIA:" +:+ nl1 +:+ "1. Foo" +:+ nl1 +:+ "2. Bar" +:+ nl2 +:+
          "TECHNICAL CONTEXT:" +:+ context)
    with (criteria_block +:+ nl2 +:+ "TECHNICAL CONTEXT:" +:+ context).
  rewrite <- (app_assoc_str "USER STORY:" story).
  unfold _parse_ai_response, parse_sections.
  rewrite split_nl2_app.
  2:{ rewrite app_assoc_str. skip_known. exact Hsb. }
  rewrite split_nl2_app by reflexivity.
  rewrite split_nl2_none.
  2:{ skip_known. exact Hcb. }
  cbn [fold_left].
  rewrite (parse_user_story_block _ _ Hsu), parse_criteria_block.
  rewrite (parse_technical_context_block _ _ Hcu Hca Hct).
  unfold parse_finish.
  cbn [st_user_story st_acceptance_criteria st_technical_context parse_init].
  rewrite (or_str_given _ _ Hsn), (or_str_given _ _ Hcn).
  reflexivity.
Qed.

(** Two of the ways the blocks can be read differently: a story after an
    empty line is appended with a blank in front, and a context that names
    another marker is read as that section. *)
Example parse_story_after_blank_line :
  user_story (_parse_ai_response ("USER STORY:" +:+ nl2 +:+ "As a user")) = " As a user".
Proof. reflexivity. Qed.

Example parse_context_with_marker :
  _parse_ai_response
    ("USER STORY:" +:+ nl1 +:+ "Story" +:+ nl2 +:+
     "TECHNICAL CONTEXT:" +:+ nl1 +:+ "See USER STORY: above")
  = {| user_story := "TECHNICAL CONTEXT:" +:+ nl1 +:+ "See  above";
       pr_acceptance_criteria := [default_criterion];
       pr_technical_context := default_technical_context |}.
Proof. reflexivity. Qed.

(** Without a criteria section the numbered list is the default alone. *)
Example parse_without_criteria :
  numbered_criteria
    (pr_acceptance_criteria
       (_parse_ai_response
          ("USER STORY:" +:+ nl1 +:+ "Story" +:+ nl2 +:+
           "TECHNICAL CONTEXT:" +:+ nl1 +:+ "Context")))
  = ["1. The functionality should work as expected."].
Proof. reflexivity. Qed.

(** ** The update loop *)

Lemma update_loop_lists JIRA_DOMAIN put tickets : forall n updated failed,
  update_loop JIRA_DOMAIN put n tickets updated failed
  = (updated ++ omap updated_key
                  (imap (fun i ticket => (ticket, put_outcome JIRA_DOMAIN put (n + i) ticket))
                        tickets),
     failed ++ omap failed_entry
                 (imap (fun i ticket => (ticket, put_outcome JIRA_DOMAIN put (n + i) ticket))
                       tickets)).
Proof.
  induction tickets as [|ticket rest IH]; intros n updated failed.
  - simpl. rewrite !app_nil_r. reflexivity.
  - cbn [update_loop imap omap].
    unfold updated_key at 1, failed_entry at 1. cbn [fst snd].
    unfold put_outcome at 1 3. rewrite Nat.add_0_r.
    assert (Hext : imap ((fun i t => (t, put_outcome JIRA_DOMAIN put (n + i) t)) ∘ S) rest
                   = imap (fun i t => (t, put_outcome JIRA_DOMAIN put (S n + i) t)) rest).
    { apply imap_ext. intros i t _. simpl. replace (n + S i) with (S (n + i)) by lia.
      reflexivity. }
    rewrite Hext.
    destruct (put n _ _) as [|message]; rewrite IH, <- app_assoc; reflexivity.
Qed.

Lemma update_tickets_lists JIRA_DOMAIN put tickets :
  updated_tickets (update_tickets JIRA_DOMAIN put tickets)
  = omap updated_key (put_outcomes JIRA_DOMAIN put tickets)
  /\ failed_tickets (update_tickets JIRA_DOMAIN put tickets)
     = omap failed_entry (put_outcomes JIRA_DOMAIN put tickets)
  /\ success (update_tickets JIRA_DOMAIN put tickets)
     = (0 <? length (omap updated_key (put_outcomes JIRA_DOMAIN put tickets)))%nat.
Proof.
  unfold update_tickets. rewrite update_loop_lists. simpl. repeat split.
Qed.

Lemma outcomes_partition (entries : list (RewrittenTicket * put_result)) :
  List.map (fun entry => rt_key (fst entry)) entries
  ≡ₚ omap updated_key entries ++ List.map fst (omap failed_entry entries).
Proof.
  induction entries as [|[ticket [|message]] rest IH]; simpl.
  - reflexivity.
  - unfold updated_key at 1, failed_entry at 1. simpl. rewrite IH. reflexivity.
  - unfold updated_key at 1, failed_entry at 1. simpl.
    rewrite IH. apply Permutation_middle.
Qed.

Lemma imap_pair_keys (f : nat -> RewrittenTicket -> put_result) tickets :
  List.map (fun entry => rt_key (fst entry)) (imap (fun i ticket => (ticket, f i ticket)) tickets)
  = List.map rt_key tickets.
Proof.
  revert f. induction tickets as [|t ts IH]; intros f; [reflexivity|].
  simpl. f_equal. apply (IH (fun i => f (S i))).
Qed.

Lemma put_outcomes_keys JIRA_DOMAIN put tickets :
  List.map (fun entry => rt_key (fst entry)) (put_outcomes JIRA_DOMAIN put tickets)
  = List.map rt_key tickets.
Proof. apply imap_pair_keys. Qed.

Lemma omap_sublist {A B} (f : A -> option B) (g : A -> B) (l : list A) :
  (forall x y, f x = Some y -> y = g x) -> omap f l `sublist_of` List.map g l.
Proof.
  intros Hfg. induction l as [|x l IH]; simpl; [constructor|].
  destruct (f x) as [y|] eqn:E.
  - rewrite (Hfg _ _ E). constructor. exact IH.
  - constructor. exact IH.
Qed.

(** X1: every ticket of an update request is recorded exactly once, as
    updated or as failed: the keys of the request are the updated keys and the
    failed keys together, each list keeps the order of the request, and no
    request is left out. *)
Theorem update_tickets_partition JIRA_DOMAIN put (tickets : list RewrittenTicket) :
  let result := update_tickets JIRA_DOMAIN put tickets in
  List.map rt_key tickets
  ≡ₚ updated_tickets result ++ List.map fst (failed_tickets result)
  /\ updated_tickets result `sublist_of` List.map rt_key tickets
  /\ List.map fst (failed_tickets result) `sublist_of` List.map rt_key tickets
  /\ length (updated_tickets result) + length (failed_tickets result) = length tickets.
Proof.
  intros result. subst result.
  destruct (update_tickets_lists JIRA_DOMAIN put tickets) as (-> & -> & _).
  pose proof (outcomes_partition (put_outcomes JIRA_DOMAIN put tickets)) as HP.
  rewrite put_outcomes_keys in HP.
  split; [exact HP|]. split; [|split].
  - rewrite <- (put_outcomes_keys JIRA_DOMAIN put tickets). apply omap_sublist.
    intros [t [|m]] y; unfold updated_key; simpl; congruence.
  - rewrite <- (put_outcomes_keys JIRA_DOMAIN put tickets).
    generalize (put_outcomes JIRA_DOMAIN put tickets) as entries.
    induction entries as [|[t [|m]] rest IH]; simpl; constructor; exact IH.
  - apply Permutation_length in HP.
    rewrite length_app, !length_map in HP. lia.
Qed.

Lemma put_outcomes_lookup JIRA_DOMAIN put tickets i :
  put_outcomes JIRA_DOMAIN put tickets !! i
  = (fun ticket => (ticket, put_outcome JIRA_DOMAIN put i ticket)) <$> tickets !! i.
Proof. unfold put_outcomes. apply list_lookup_imap. Qed.

Lemma put_outcomes_elem JIRA_DOMAIN put tickets entry :
  entry ∈ put_outcomes JIRA_DOMAIN put tickets <->
  exists i ticket, tickets !! i = Some ticket /\
    entry = (ticket, put_outcome JIRA_DOMAIN put i ticket).
Proof.
  rewrite list_elem_of_lookup. split.
  - intros [i Hi]. rewrite put_outcomes_lookup in Hi.
    destruct (tickets !! i) as [ticket|] eqn:E; [|discriminate].
    exists i, ticket. split; [exact E|]. simpl in Hi. congruence.
  - intros (i & ticket & Ht & ->). exists i.
    rewrite put_outcomes_lookup, Ht. reflexivity.
Qed.

(** X2: a ticket is recorded by what its own request did, whatever happened
    to the others: its key is among the updated keys when the request
    succeeded, and it is among the failed entries with the text of the
    exception when the request raised; [success] is true exactly when some
    request succeeded. *)
Theorem update_tickets_recorded JIRA_DOMAIN put (tickets : list RewrittenTicket) :
  let result := update_tickets JIRA_DOMAIN put tickets in
  (forall i ticket, tickets !! i = Some ticket ->
     match put_outcome JIRA_DOMAIN put i ticket with
     | PutOk => rt_key ticket ∈ updated_tickets result
     | PutRaised message => (rt_key ticket, message) ∈ failed_tickets result
     end)
  /\ (success result = true <->
      exists i ticket, tickets !! i = Some ticket /\
        put_outcome JIRA_DOMAIN put i ticket = PutOk)
  /\ (tickets = [] -> success result = false).
Proof.
  intros result. subst result.
  destruct (update_tickets_lists JIRA_DOMAIN put tickets) as (-> & -> & ->).
  split; [|split].
  - intros i ticket Ht.
    assert (Hin : (ticket, put_outcome JIRA_DOMAIN put i ticket)
                  ∈ put_outcomes JIRA_DOMAIN put tickets).
    { apply put_outcomes_elem. exists i, ticket. split; [exact Ht|reflexivity]. }
    destruct (put_outcome JIRA_DOMAIN put i ticket) as [|message] eqn:E;
      apply list_elem_of_omap; eexists; (split; [exact Hin|]).
    + reflexivity.
    + reflexivity.
  - rewrite Nat.ltb_lt. split.
    + intros Hlen.
      destruct (omap updated_key (put_outcomes JIRA_DOMAIN put tickets)) as [|k ks] eqn:E;
        [simpl in Hlen; lia|].
      assert (Hk : k ∈ omap updated_key (put_outcomes JIRA_DOMAIN put tickets))
        by (rewrite E; apply list_elem_of_here).
      apply list_elem_of_omap in Hk as ([t o] & Hin & Hkey).
      apply put_outcomes_elem in Hin as (i & ticket & Ht & [= -> ->]).
      exists i, ticket. split; [exact Ht|].
      unfold updated_key in Hkey. simpl in Hkey.
      destruct (put_outcome JIRA_DOMAIN put i ticket); [reflexivity|discriminate].
    + intros (i & ticket & Ht & Hok).
      assert (Hk : rt_key ticket ∈ omap updated_key (put_outcomes JIRA_DOMAIN put tickets)).
      { apply list_elem_of_omap. exists (ticket, PutOk). split; [|reflexivity].
        apply put_outcomes_elem. exists i, ticket. split; [exact Ht|]. rewrite Hok.
        reflexivity. }
      destruct (omap updated_key _); [inversion Hk|simpl; lia].
  - intros ->. reflexivity.
Qed.

Lemma update_tickets_recorded_witness :
  ("SHOP-1", "404 Client Error")
  ∈ failed_tickets (update_tickets "example.atlassian.net" sample_put sample_rewritten)
  /\ "SHOP-2" ∈ updated_tickets (update_tickets "example.atlassian.net" sample_put sample_rewritten)
  /\ success (update_tickets "example.atlassian.net" sample_put sample_rewritten) = true.
Proof.
  destruct (update_tickets_recorded "example.atlassian.net" sample_put sample_rewritten)
    as (Hrec & Hsucc & _).
  split; [|split].
  - exact (Hrec 0 (rewrite_ticket (sample_model 0) ticket_slow) eq_refl).
  - exact (Hrec 1 (rewrite_ticket (sample_model 1) ticket_dark) eq_refl).
  - apply Hsucc. exists 1, (rewrite_ticket (sample_model 1) ticket_dark).
    split; reflexivity.
Defined.

(** X3: the rewrite endpoint answers with the error 500 "Failed to generate
    any user stories" exactly when the batch is empty; every other batch is
    answered with the list of its rewritten tickets, whatever the model did. *)
Theorem rewrite_tickets_error_iff_empty model (tickets : list Ticket) :
  (rewrite_tickets model tickets
   = HTTPException 500 "Failed to generate any user stories" <-> tickets = [])
  /\ (forall status_code detail,
        rewrite_tickets model tickets = HTTPException status_code detail ->
        tickets = [])
  /\ (tickets <> [] ->
      exists out, rewrite_tickets model tickets = Ok out /\
        List.map rt_key out = List.map key tickets).
Proof.
  assert (Hkeys : forall n ts, List.map rt_key (rewrite_loop model n ts) = List.map key ts).
  { intros n ts. revert n. induction ts as [|t ts IH]; intros n; simpl; [reflexivity|].
    rewrite IH, rewrite_ticket_assemble. reflexivity. }
  destruct tickets as [|t ts].
  - split; [split; reflexivity|]. split; [reflexivity|congruence].
  - split; [split; discriminate|]. split; [discriminate|].
    intros _. exists (rewrite_loop model 0 (t :: ts)). split; [reflexivity|apply Hkeys].
Qed.

Lemma rewrite_tickets_error_iff_empty_witness :
  exists out, rewrite_tickets sample_model [ticket_slow; ticket_dark] = Ok out /\
    List.map rt_key out = ["SHOP-1"; "SHOP-2"].
Proof.
  destruct (rewrite_tickets_error_iff_empty sample_model [ticket_slow; ticket_dark])
    as (_ & _ & H).
  apply H. discriminate.
Defined.

(** ** Numbers in front of criteria *)

Lemma revapp_nonnil d d' : d' <> Decimal.Nil -> Decimal.revapp d d' <> Decimal.Nil.
Proof.
  revert d'. induction d; intros d' H; simpl; try (apply IHd; discriminate). exact H.
Qed.

Lemma little_succ_nonnil d : Decimal.Little.succ d <> Decimal.Nil.
Proof. destruct d; discriminate. Qed.

Lemma to_little_uint_nonnil n : forall acc,
  acc <> Decimal.Nil -> Nat.to_little_uint n acc <> Decimal.Nil.
Proof.
  induction n as [|n IH]; intros acc H; simpl; [exact H|].
  apply IH, little_succ_nonnil.
Qed.

Lemma to_uint_nonnil n : Nat.to_uint n <> Decimal.Nil.
Proof.
  unfold Nat.to_uint, Decimal.rev.
  pose proof (to_little_uint_nonnil n Decimal.zero) as H.
  destruct (Nat.to_little_uint n Decimal.zero); simpl;
    try (apply revapp_nonnil; discriminate).
  apply H. discriminate.
Qed.

Lemma skip_digits_numeral d r :
  skip_digits (NilEmpty.string_of_uint d +:+ String "." r) = String "." r.
Proof. induction d; simpl; try exact IHd. reflexivity. Qed.

(** A decimal numeral and a dot in front of a text are what [^\d+\.] matches. *)
Lemma after_number_dot_format i r :
  after_number_dot (format_int i +:+ String "." r) = Some r.
Proof.
  unfold format_int. pose proof (to_uint_nonnil i) as H.
  destruct (Nat.to_uint i) as [|d|d|d|d|d|d|d|d|d|d]; [congruence|..];
    cbn [NilEmpty.string_of_uint]; rewrite app_String;
    unfold after_number_dot; simpl isdigit; cbv iota;
    rewrite skip_digits_numeral; reflexivity.
Qed.

Lemma re_sub_numbered i x : re_sub_number (format_int i +:+ ". " +:+ x) = lstrip x.
Proof.
  unfold re_sub_number.
  change (". " +:+ x) with (String "." (String " " x)).
  rewrite after_number_dot_format. reflexivity.
Qed.

Lemma lstrip_idem s : lstrip (lstrip s) = lstrip s.
Proof.
  induction s as [|c s IH]; [reflexivity|].
  rewrite (lstrip_cons c s). destruct (isspace c) eqn:E; [exact IH|].
  rewrite lstrip_cons, E. reflexivity.
Qed.

Lemma lstrip_is_suffix s : exists w, s = w +:+ lstrip s.
Proof.
  induction s as [|c s [w IH]]; [exists ""; reflexivity|].
  rewrite lstrip_cons. destruct (isspace c).
  - exists (String c w). rewrite app_String, <- IH. reflexivity.
  - exists "". reflexivity.
Qed.

Lemma rstrip_suffix a b : rstrip (a +:+ b) = a +:+ b -> rstrip b = b.
Proof.
  induction a as [|c a IH]; [auto|].
  rewrite app_String, rstrip_cons.
  destruct (nonempty (rstrip (a +:+ b)) || negb (isspace c)); [|discriminate].
  intros [= H]. exact (IH H).
Qed.

Lemma skip_digits_is_suffix s : exists p, s = p +:+ skip_digits s.
Proof.
  induction s as [|c s [p IH]]; [exists ""; reflexivity|].
  simpl. destruct (isdigit c).
  - exists (String c p). rewrite app_String, <- IH. reflexivity.
  - exists "". reflexivity.
Qed.

Lemma after_number_dot_suffix s rest :
  after_number_dot s = Some rest -> exists p, s = p +:+ rest.
Proof.
  destruct s as [|c s]; [discriminate|]. unfold after_number_dot.
  destruct (isdigit c); [|discriminate].
  destruct (skip_digits_is_suffix s) as [p Hp].
  destruct (skip_digits s) as [|d t]; [discriminate|].
  destruct (Ascii.eqb_spec d "."%char) as [->|Hne].
  - intros [= <-]. exists (String c p +:+ ".").
    rewrite app_assoc_str, app_String. f_equal. exact Hp.
  - intros H. exfalso.
    destruct d as [[|] [|] [|] [|] [|] [|] [|] [|]]; try discriminate H.
    apply Hne. reflexivity.
Qed.

(** A text without blanks at either end keeps that after its number is
    taken off. *)
Lemma re_sub_trimmed x :
  lstrip x = x -> rstrip x = x ->
  lstrip (re_sub_number x) = re_sub_number x /\ rstrip (re_sub_number x) = re_sub_number x.
Proof.
  intros Hl Hr. unfold re_sub_number.
  destruct (after_number_dot x) as [rest|] eqn:E; [|split; assumption].
  split; [apply lstrip_idem|].
  destruct (after_number_dot_suffix _ _ E) as [p Hp].
  destruct (lstrip_is_suffix rest) as [w Hw].
  apply (rstrip_suffix (p +:+ w)). rewrite app_assoc_str, <- Hw, <- Hp. exact Hr.
Qed.

Lemma strip_trimmed s : lstrip (strip s) = strip s /\ rstrip (strip s) = strip s.
Proof.
  unfold strip. split; [|apply rstrip_idem].
  rewrite lstrip_rstrip, lstrip_idem. reflexivity.
Qed.

(** ** The criteria the parser returns *)

Lemma numbered_lines_trimmed text : Forall trimmed (numbered_lines text).
Proof.
  unfold numbered_lines. apply List.Forall_forall. intros x Hx.
  apply List.filter_In in Hx as [Hx _]. apply List.in_map_iff in Hx as (y & <- & _).
  apply strip_trimmed.
Qed.

Lemma parse_section_criteria st section :
  Forall trimmed (st_acceptance_criteria st) ->
  Forall trimmed (st_acceptance_criteria (parse_section st section)).
Proof.
  intros H. unfold parse_section.
  repeat match goal with
         | |- context [if ?b then _ else _] => destruct b
         | |- context [match current_section st with _ => _ end] =>
             destruct (current_section st) as [[| |]|]
         end;
    cbn [st_acceptance_criteria]; try exact H;
    apply Forall_app; (split; [exact H|apply numbered_lines_trimmed]).
Qed.

Lemma fold_parse_section_criteria sections : forall st,
  Forall trimmed (st_acceptance_criteria st) ->
  Forall trimmed (st_acceptance_criteria (fold_left parse_section sections st)).
Proof.
  induction sections as [|section rest IH]; intros st H; [exact H|].
  simpl. apply IH, parse_section_criteria, H.
Qed.

Lemma parse_criteria_all_trimmed (response_text : string) :
  Forall (fun criterion => criterion <> "" /\ trimmed criterion)
         (pr_acceptance_criteria (_parse_ai_response response_text)).
Proof.
  unfold _parse_ai_response, parse_finish. cbn [pr_acceptance_criteria].
  assert (Hcap : Forall trimmed (st_acceptance_criteria (parse_sections response_text))).
  { apply fold_parse_section_criteria. constructor. }
  set (captured := st_acceptance_criteria (parse_sections response_text)) in *.
  assert (Hsrc : Forall trimmed (or_list captured ["1. " +:+ default_criterion])).
  { destruct captured; [|exact Hcap]. constructor; [split; reflexivity|constructor]. }
  set (source := or_list captured _) in *.
  assert (Hfmt : Forall (fun c => c <> "" /\ trimmed c)
                   (List.filter nonempty (List.map re_sub_number source))).
  { apply List.Forall_forall. intros c Hc.
    apply List.filter_In in Hc as [Hc Hne]. apply List.in_map_iff in Hc as (x & <- & Hx).
    rewrite List.Forall_forall in Hsrc. destruct (Hsrc x Hx) as [Hl Hr].
    split; [destruct (re_sub_number x); discriminate|].
    apply re_sub_trimmed; assumption. }
  destruct (List.filter nonempty (List.map re_sub_number source)); [|exact Hfmt].
  constructor; [|constructor]. split; [discriminate|split; reflexivity].
Qed.

(** X4: every criterion the parser returns is non-empty and has no blank
    at its start or at its end, for every response text. *)
Theorem parsed_criteria_trimmed (response_text : string) :
  Forall (fun criterion => criterion <> "" /\ lstrip criterion = criterion
                           /\ rstrip criterion = criterion)
         (pr_acceptance_criteria (_parse_ai_response response_text)).
Proof. exact (parse_criteria_all_trimmed response_text). Qed.

Lemma number_from_idem criteria : forall i,
  Forall (fun c => lstrip (re_sub_number c) = re_sub_number c) criteria ->
  number_from i (number_from i criteria) = number_from i criteria.
Proof.
  induction criteria as [|c cs IH]; intros i H; [reflexivity|].
  inversion H as [|? ? Hc Hcs]; subst. simpl.
  rewrite re_sub_numbered, Hc, (IH _ Hcs). reflexivity.
Qed.

Lemma parsed_response_clean r ticket :
  Forall (fun c => lstrip (re_sub_number c) = re_sub_number c)
         (pr_acceptance_criteria (parsed_response_of r ticket)).
Proof.
  assert (Hfb : forall td,
             Forall (fun c => lstrip (re_sub_number c) = re_sub_number c)
               (pr_acceptance_criteria (_generate_better_fallback_response td))).
  { intros td. destruct (fallback_criteria td) as [-> | ->];
      repeat constructor. }
  unfold parsed_response_of. destruct (model_failed r); [apply Hfb|].
  destruct r as [|[text|]]; try apply Hfb.
  eapply List.Forall_impl; [|apply parse_criteria_all_trimmed].
  intros c (_ & Hl & Hr). apply re_sub_trimmed; assumption.
Qed.

(** X5: the numbered criteria of every rewritten ticket the endpoint returns
    are stable under numbering: numbering them again gives the same list, so
    a client can send a rewritten ticket through the numbering step again
    without doubling or changing a prefix. *)
Theorem returned_criteria_stable model tickets out (r : RewrittenTicket) :
  rewrite_tickets model tickets = Ok out ->
  r ∈ out ->
  numbered_criteria (acceptance_criteria r) = acceptance_criteria r.
Proof.
  intros Hok Hr. apply list_elem_of_lookup in Hr as [i Hi].
  destruct (rewrite_tickets_lookup _ _ _ _ _ Hok Hi) as (ticket & _ & ->).
  cbn [assemble acceptance_criteria]. apply number_from_idem, parsed_response_clean.
Qed.

Lemma returned_criteria_stable_witness :
  numbered_criteria ["1. Foo"; "2. Bar"] = ["1. Foo"; "2. Bar"].
Proof.
  apply (returned_criteria_stable sample_model [ticket_slow; ticket_dark]
           sample_rewritten (rewrite_ticket (sample_model 1) ticket_dark)).
  - reflexivity.
  - apply list_elem_of_lookup. exists 1. reflexivity.
Defined.

(** ** Splitting and joining *)

Lemma split_from_skip sep a s :
  split_from sep (String.length a) (a +:+ s) = split_from sep 0 s.
Proof.
  induction a as [|c a IH]; [destruct s; reflexivity|].
  rewrite app_String. simpl. exact IH.
Qed.

Lemma split_from_nonempty sep s : forall k, split_from sep k s <> [].
Proof.
  induction s as [|c s IH]; intros k; [discriminate|].
  destruct k as [|k]; [|apply IH].
  rewrite split_from_cons. destruct (String.prefix sep (String c s)); [discriminate|].
  specialize (IH 0). destruct (split_from sep 0 s); [congruence|discriminate].
Qed.

Lemma prefix_decompose m s : String.prefix m s = true -> exists t, s = m +:+ t.
Proof.
  revert s. induction m as [|x m IH]; intros s H; [exists s; reflexivity|].
  destruct s as [|c s]; [discriminate|].
  rewrite prefix_String in H. apply andb_true_iff in H as [Hx H].
  apply Ascii.eqb_eq in Hx as ->. destruct (IH _ H) as [t ->].
  exists t. reflexivity.
Qed.

Lemma length_app_str a b : String.length (a +:+ b) = String.length a + String.length b.
Proof. induction a as [|c a IH]; [reflexivity|]. rewrite app_String. simpl. lia. Qed.

Lemma concat_cons_head sep c pieces :
  pieces <> [] ->
  String.concat sep (cons_head c pieces) = String c (String.concat sep pieces).
Proof.
  destruct pieces as [|p [|q ps]]; [congruence|reflexivity|reflexivity].
Qed.

(** [sep.join(s.split(sep))] is [s] again. *)
Lemma concat_split x sep s : String.concat (String x sep) (split (String x sep) s) = s.
Proof.
  unfold split.
  remember (String.length s) as n eqn:Hn. revert s Hn.
  induction n as [n IH] using lt_wf_ind. intros s Hn.
  destruct s as [|c s]; [reflexivity|].
  rewrite split_from_cons.
  destruct (String.prefix (String x sep) (String c s)) eqn:Hp.
  - destruct (prefix_decompose _ _ Hp) as [t Ht].
    rewrite app_String in Ht. injection Ht as Hc Hs. subst c s.
    replace (String.length (String x sep) - 1) with (String.length sep) by (simpl; lia).
    rewrite split_from_skip.
    pose proof (split_from_nonempty (String x sep) t 0) as Hne.
    pose proof (IH (String.length t) ltac:(subst n; simpl; rewrite length_app_str; lia)
                  t eq_refl) as Ht.
    destruct (split_from (String x sep) 0 t) as [|p ps] eqn:E; [congruence|].
    change (String.concat (String x sep) ("" :: p :: ps))
      with ("" +:+ String x sep +:+ String.concat (String x sep) (p :: ps)).
    rewrite Ht. reflexivity.
  - rewrite concat_cons_head by apply split_from_nonempty.
    rewrite (IH (String.length s) ltac:(subst n; simpl; lia) s eq_refl). reflexivity.
Qed.

Lemma concat_piece sep pieces p :
  In p pieces -> exists a b, String.concat sep pieces = a +:+ p +:+ b.
Proof.
  induction pieces as [|q [|q' qs] IH]; intros Hin; [destruct Hin| |].
  - destruct Hin as [->|[]]. exists "", "". rewrite app_empty_r. reflexivity.
  - change (String.concat sep (q :: q' :: qs))
      with (q +:+ sep +:+ String.concat sep (q' :: qs)).
    destruct Hin as [->|Hin].
    + exists "", (sep +:+ String.concat sep (q' :: qs)). reflexivity.
    + destruct (IH Hin) as (a & b & ->).
      exists (q +:+ sep +:+ a), b. rewrite !app_assoc_str. reflexivity.
Qed.

Lemma str_in_piece m x sep s p :
  In p (split (String x sep) s) -> str_in m p = true -> str_in m s = true.
Proof.
  intros Hin Hm. destruct (concat_piece (String x sep) _ _ Hin) as (a & b & Hab).
  rewrite concat_split in Hab. rewrite Hab.
  apply str_in_app_r, str_in_app_l, Hm.
Qed.

Lemma str_in_strip m s : str_in m (strip s) = true -> str_in m s = true.
Proof.
  intros H. unfold strip in H.
  destruct (lstrip_is_suffix s) as [w Hw].
  destruct (rstrip_is_prefix (lstrip s)) as [v Hv].
  rewrite Hw. apply str_in_app_r. rewrite Hv. apply str_in_app_l, H.
Qed.

(** ** Blank texts *)

Lemma blank_app a b : blank (a +:+ b) = blank a && blank b.
Proof.
  induction a as [|c a IH]; [reflexivity|].
  rewrite app_String. simpl. rewrite IH, andb_assoc. reflexivity.
Qed.

Lemma blank_lstrip s : blank (lstrip s) = blank s.
Proof.
  induction s as [|c s IH]; [reflexivity|].
  rewrite lstrip_cons. destruct (isspace c) eqn:E; simpl; rewrite E; [exact IH|reflexivity].
Qed.

Lemma nonempty_rstrip s : nonempty (rstrip s) = negb (blank s).
Proof.
  induction s as [|c s IH]; [reflexivity|].
  rewrite rstrip_cons, IH. simpl.
  destruct (blank s), (isspace c); reflexivity.
Qed.

Lemma nonempty_strip s : nonempty (strip s) = negb (blank s).
Proof. unfold strip. rewrite nonempty_rstrip, blank_lstrip. reflexivity. Qed.

Lemma blank_concat sep pieces :
  blank sep = true -> Forall (fun p => blank p = true) pieces ->
  blank (String.concat sep pieces) = true.
Proof.
  intros Hsep. induction pieces as [|p [|q qs] IH]; intros H; [reflexivity| |].
  - inversion H; assumption.
  - change (String.concat sep (p :: q :: qs))
      with (p +:+ sep +:+ String.concat sep (q :: qs)).
    inversion H as [|? ? Hp Hrest]; subst.
    rewrite !blank_app, Hp, Hsep, (IH Hrest). reflexivity.
Qed.

(** ** Responses without the section markers *)

Lemma parse_section_no_marker st section :
  current_section st = None ->
  str_in "USER STORY:" (strip section) = false ->
  str_in "ACCEPTANCE CRITERIA:" (strip section) = false ->
  str_in "TECHNICAL CONTEXT:" (strip section) = false ->
  parse_section st section = st.
Proof.
  intros Hcur Hu Ha Ht. unfold parse_section.
  rewrite Hu, Ha, Ht, Hcur. destruct (negb (nonempty (strip section))); reflexivity.
Qed.

Lemma fold_parse_section_no_marker sections : forall st,
  current_section st = None ->
  Forall (fun section =>
            str_in "USER STORY:" (strip section) = false /\
            str_in "ACCEPTANCE CRITERIA:" (strip section) = false /\
            str_in "TECHNICAL CONTEXT:" (strip section) = false) sections ->
  fold_left parse_section sections st = st.
Proof.
  induction sections as [|section rest IH]; intros st Hcur H; [reflexivity|].
  inversion H as [|? ? (Hu & Ha & Ht) Hrest]; subst. simpl.
  rewrite (parse_section_no_marker _ _ Hcur Hu Ha Ht). apply IH; assumption.
Qed.

Lemma str_in_section_false m text section :
  str_in m text = false -> In section (split nl2 text) -> str_in m (strip section) = false.
Proof.
  intros Hm Hin. destruct (str_in m (strip section)) eqn:E; [|reflexivity].
  apply str_in_strip in E. rewrite (str_in_piece m LF nl1 text section Hin E) in Hm.
  discriminate.
Qed.

(** X6: a response in which none of the three markers occurs, in exactly
    their upper-case spelling, gives the three defaults: nothing of the text
    is kept. *)
Theorem parse_without_markers (response_text : string) :
  str_in "USER STORY:" response_text = false ->
  str_in "ACCEPTANCE CRITERIA:" response_text = false ->
  str_in "TECHNICAL CONTEXT:" response_text = false ->
  _parse_ai_response response_text
  = {| user_story := "As a user, I want this issue resolved so that I can work efficiently.";
       pr_acceptance_criteria := ["The functionality should work as expected."];
       pr_technical_context :=
         "This ticket addresses a technical issue that impacts user experience." |}.
Proof.
  intros Hu Ha Ht. unfold _parse_ai_response, parse_sections.
  rewrite fold_parse_section_no_marker; [reflexivity|reflexivity|].
  apply List.Forall_forall. intros section Hin.
  repeat split; eapply str_in_section_false; eassumption.
Qed.

Lemma parse_without_markers_witness :
  _parse_ai_response
    ("User Story:" +:+ nl1 +:+ "As a shopper, I want a fast checkout." +:+ nl2 +:+
     "Acceptance Criteria:" +:+ nl1 +:+ "1. Foo")
  = {| user_story := default_user_story;
       pr_acceptance_criteria := [default_criterion];
       pr_technical_context := default_technical_context |}.
Proof.
  apply (parse_without_markers
           ("User Story:" +:+ nl1 +:+ "As a shopper, I want a fast checkout." +:+ nl2 +:+
            "Acceptance Criteria:" +:+ nl1 +:+ "1. Foo")); reflexivity.
Defined.

(** ** What a rewritten ticket always holds *)

Lemma parse_section_nonblank st section :
  (st_user_story st = "" \/ blank (st_user_story st) = false) ->
  (st_technical_context st = "" \/ blank (st_technical_context st) = false) ->
  (st_user_story (parse_section st section) = ""
   \/ blank (st_user_story (parse_section st section)) = false)
  /\ (st_technical_context (parse_section st section) = ""
      \/ blank (st_technical_context (parse_section st section)) = false).
Proof.
  intros Hu Ht.
  assert (Hstrip : forall s, strip s = "" \/ blank (strip s) = false).
  { intros s. pose proof (nonempty_strip (strip s)) as H.
    destruct (strip_trimmed s) as [Hl Hr].
    unfold strip at 1 in H. rewrite Hl, Hr in H.
    destruct (strip s) as [|a t]; [left; reflexivity|right].
    change (nonempty (String a t)) with true in H.
    destruct (blank (String a t)); [discriminate|reflexivity]. }
  unfold parse_section.
  destruct (nonempty (strip section)) eqn:Hne; [|split; assumption]. cbn [negb].
  assert (Hsec : blank (strip section) = false).
  { destruct (Hstrip section) as [E|E]; [rewrite E in Hne; discriminate|exact E]. }
  repeat match goal with
         | |- context [if ?b then _ else _] => destruct b
         | |- context [match current_section st with _ => _ end] =>
             destruct (current_section st) as [[| |]|]
         end;
    cbn [st_user_story st_technical_context];
    split; try assumption; try apply Hstrip;
    right; rewrite !blank_app, Hsec, !andb_false_r; reflexivity.
Qed.

Lemma fold_parse_section_nonblank sections : forall st,
  (st_user_story st = "" \/ blank (st_user_story st) = false) ->
  (st_technical_context st = "" \/ blank (st_technical_context st) = false) ->
  (st_user_story (fold_left parse_section sections st) = ""
   \/ blank (st_user_story (fold_left parse_section sections st)) = false)
  /\ (st_technical_context (fold_left parse_section sections st) = ""
      \/ blank (st_technical_context (fold_left parse_section sections st)) = false).
Proof.
  induction sections as [|section rest IH]; intros st Hu Ht; [split; assumption|].
  simpl. destruct (parse_section_nonblank st section Hu Ht) as [Hu' Ht'].
  apply IH; assumption.
Qed.

Lemma parsed_response_nonblank r ticket :
  blank (user_story (parsed_response_of r ticket)) = false
  /\ blank (pr_technical_context (parsed_response_of r ticket)) = false.
Proof.
  assert (Hfb : forall td,
             blank (user_story (_generate_better_fallback_response td)) = false
             /\ blank (pr_technical_context (_generate_better_fallback_response td)) = false).
  { intros td. unfold _generate_better_fallback_response.
    destruct (is_performance_issue _ _); split; reflexivity. }
  unfold parsed_response_of. destruct (model_failed r); [apply Hfb|].
  destruct r as [|[text|]]; try apply Hfb.
  unfold _parse_ai_response, parse_finish, parse_sections.
  cbn [user_story pr_technical_context].
  destruct (fold_parse_section_nonblank (split nl2 text) parse_init) as [Hu Ht];
    [left; reflexivity|left; reflexivity|].
  unfold or_str. split.
  - destruct Hu as [-> | Hu]; [reflexivity|].
    destruct (st_user_story _); [discriminate|exact Hu].
  - destruct Ht as [-> | Ht]; [reflexivity|].
    destruct (st_technical_context _); [discriminate|exact Ht].
Qed.

Lemma description_paragraphs_nonempty description :
  blank description = false -> description_paragraphs description <> [].
Proof.
  intros Hb Hnil. unfold description_paragraphs in Hnil.
  assert (Hall : Forall (fun p => blank p = true) (split nl2 description)).
  { apply List.Forall_forall. intros p Hp.
    destruct (blank p) eqn:E; [reflexivity|]. exfalso.
    assert (Hin : In p (List.filter (fun para => nonempty (strip para))
                          (split nl2 description))).
    { apply List.filter_In. split; [exact Hp|]. rewrite nonempty_strip, E. reflexivity. }
    rewrite Hnil in Hin. destruct Hin. }
  pose proof (blank_concat nl2 _ eq_refl Hall) as Hc.
  unfold nl2 in Hc at 1 2. rewrite concat_split in Hc. congruence.
Qed.

(** X7: in every rewritten ticket the endpoint returns, the rewritten title
    and the technical context hold more than blanks, and the document the
    update endpoint builds from it starts with a paragraph of text: it is
    never the heading and the list alone. *)
Theorem rewritten_ticket_has_text model tickets out (r : RewrittenTicket) :
  rewrite_tickets model tickets = Ok out ->
  r ∈ out ->
  strip (rewritten_title r) <> "" /\
  strip (technical_context r) <> "" /\
  exists para rest,
    strip para <> "" /\
    adf_content r = adf_paragraph [adf_text (strip para)] :: rest.
Proof.
  intros Hok Hr. apply list_elem_of_lookup in Hr as [i Hi].
  destruct (rewrite_tickets_lookup _ _ _ _ _ Hok Hi) as (ticket & _ & ->).
  destruct (parsed_response_nonblank (model i (prompt_for ticket)) ticket) as [Hu Ht].
  set (parsed := parsed_response_of _ _) in *.
  assert (Hne : forall s, blank s = false -> strip s <> "").
  { intros s Hs E. pose proof (nonempty_strip s) as H. rewrite E, Hs in H. discriminate. }
  split; [apply Hne, Hu|]. split; [apply Hne, Ht|].
  rewrite adf_content_blocks.
  pose proof (description_paragraphs_nonempty
                (rewritten_description (assemble ticket parsed))) as Hpar.
  destruct (description_paragraphs (rewritten_description (assemble ticket parsed)))
    as [|para paras] eqn:E.
  - exfalso. apply Hpar; [|reflexivity].
    cbn [assemble rewritten_description]. rewrite blank_app, Hu. reflexivity.
  - exists para. eexists. split; [|reflexivity].
    assert (Hin : In para (description_paragraphs
                             (rewritten_description (assemble ticket parsed)))).
    { rewrite E. left. reflexivity. }
    unfold description_paragraphs in Hin. apply List.filter_In in Hin as [_ Hin].
    destruct (strip para); [discriminate|discriminate].
Qed.

Lemma rewritten_ticket_has_text_witness :
  strip (rewritten_title (rewrite_ticket (sample_model 0) ticket_slow)) <> "".
Proof.
  apply (rewritten_ticket_has_text sample_model [ticket_slow; ticket_dark]
           sample_rewritten (rewrite_ticket (sample_model 0) ticket_slow)).
  - reflexivity.
  - apply list_elem_of_lookup. exists 0. reflexivity.
Defined.

(** ** Reading issues *)

(** X8: a description that is not a [dict], or is a [dict] without a
    ["content"] entry (the empty one included), reads as the empty string
    and raises nothing; so do a document with an empty ["content"] list and
    one whose first block has an empty ["content"] list. *)
Theorem description_text_missing (description : json) :
  ((forall members, description = JObject members -> members !! "content" = None) ->
   description_text_of description = Value (JString ""))
  /\ (forall members,
        description = JObject members -> members !! "content" = Some (JArray []) ->
        description_text_of description = Value (JString ""))
  /\ (forall members block blocks,
        description = JObject members ->
        members !! "content" = Some (JArray (JObject block :: blocks)) ->
        (block !! "content" = None \/ block !! "content" = Some (JArray [])) ->
        description_text_of description = Value (JString "")).
Proof.
  split; [|split].
  - intros H. destruct description as [| | | | |members]; try reflexivity.
    unfold description_text_of. destruct (nonempty_dict _); [|reflexivity].
    simpl. rewrite (H members eq_refl). reflexivity.
  - intros members -> Hc. unfold description_text_of.
    destruct (nonempty_dict _); [|reflexivity]. simpl. rewrite Hc. reflexivity.
  - intros members block blocks -> Hc Hb. unfold description_text_of.
    destruct (nonempty_dict _); [|reflexivity]. simpl. rewrite Hc. simpl.
    destruct Hb as [-> | ->]; reflexivity.
Qed.

Lemma description_text_missing_witness :
  description_text_of JNull = Value (JString "")
  /\ description_text_of (JObject ∅) = Value (JString "")
  /\ description_text_of (JString "plain text") = Value (JString "")
  /\ description_text_of (JObject {[ "type" := JString "doc"; "content" := JArray [] ]})
     = Value (JString "").
Proof.
  split; [|split; [|split]].
  - apply (description_text_missing JNull). discriminate.
  - apply (description_text_missing (JObject ∅)). intros members [= <-]. reflexivity.
  - apply (description_text_missing (JString "plain text")). discriminate.
  - destruct (description_text_missing
                (JObject {[ "type" := JString "doc"; "content" := JArray [] ]}))
      as (_ & H & _).
    eapply H; reflexivity.
Defined.

Lemma nonempty_dict_lookup members k (v : json) :
  members !! k = Some v -> nonempty_dict (JObject members) = true.
Proof.
  intros H. unfold nonempty_dict. rewrite bool_decide_eq_false_2; [reflexivity|].
  intros ->. rewrite lookup_empty in H. discriminate.
Qed.

Lemma description_text_first members block blocks element elements text :
  members !! "content" = Some (JArray (JObject block :: blocks)) ->
  block !! "content" = Some (JArray (JObject element :: elements)) ->
  element !! "text" = Some text ->
  description_text_of (JObject members) = Value text.
Proof.
  intros Hc Hb Ht. unfold description_text_of.
  rewrite (nonempty_dict_lookup _ _ _ Hc). simpl. rewrite Hc. simpl.
  rewrite Hb. simpl. rewrite Ht. reflexivity.
Qed.

(** X9: of a document, only the text of the first element of the first
    block is read: the other elements of that block and all other blocks do
    not change what is returned. *)
Theorem description_text_first_run members block blocks element elements text :
  members !! "content" = Some (JArray (JObject block :: blocks)) ->
  block !! "content" = Some (JArray (JObject element :: elements)) ->
  element !! "text" = Some text ->
  description_text_of (JObject members) = Value text
  /\ forall blocks' elements',
       description_text_of
         (JObject (<["content" :=
                      JArray (JObject (<["content" := JArray (JObject element :: elements')]>
                                         block) :: blocks')]> members))
       = Value text.
Proof.
  intros Hc Hb Ht. split; [exact (description_text_first _ _ _ _ _ _ Hc Hb Ht)|].
  intros blocks' elements'.
  eapply description_text_first; [apply lookup_insert_eq|apply lookup_insert_eq|exact Ht].
Qed.

Lemma description_text_first_run_witness :
  description_text_of
    (adf_json (adf_doc 1 [adf_paragraph [adf_text "First"; adf_text " second"];
                          adf_paragraph [adf_text "Third"]]))
  = Value (JString "First").
Proof.
  exact (proj1 (description_text_first_run
                  {[ "type" := JString "doc"; "version" := JNumber 1;
                     "content" :=
                       JArray [adf_json (adf_paragraph [adf_text "First"; adf_text " second"]);
                               adf_json (adf_paragraph [adf_text "Third"])] ]}
                  {[ "type" := JString "paragraph";
                     "content" := JArray [adf_json (adf_text "First");
                                          adf_json (adf_text " second")] ]}
                  [adf_json (adf_paragraph [adf_text "Third"])]
                  {[ "type" := JString "text"; "text" := JString "First" ]}
                  [adf_json (adf_text " second")]
                  (JString "First") eq_refl eq_refl eq_refl)).
Defined.

Lemma description_text_of_document (ticket : RewrittenTicket) :
  description_text_of (adf_json (snd (update_payload ticket)))
  = Value (JString
             match description_paragraphs (rewritten_description ticket) with
             | para :: _ => strip para
             | [] => "Acceptance Criteria"
             end).
Proof.
  unfold update_payload. cbn [snd]. rewrite adf_content_blocks.
  destruct (description_paragraphs (rewritten_description ticket)) as [|para paras].
  - apply (description_text_first
             {[ "type" := JString "doc"; "version" := JNumber 1;
                "content" :=
                  JArray [adf_json heading_block;
                          adf_json (adf_bulletList
                                      (List.map list_item (acceptance_criteria ticket)))] ]}
             {[ "type" := JString "heading";
                "attrs" := JObject {[ "level" := JNumber 2 ]};
                "content" := JArray [adf_json (adf_text "Acceptance Criteria")] ]}
             [adf_json (adf_bulletList (List.map list_item (acceptance_criteria ticket)))]
             {[ "type" := JString "text"; "text" := JString "Acceptance Criteria" ]}
             [] (JString "Acceptance Criteria")); reflexivity.
  - apply (description_text_first
             {[ "type" := JString "doc"; "version" := JNumber 1;
                "content" :=
                  JArray (adf_json (paragraph_block para)
                          :: List.map adf_json
                               (List.map paragraph_block paras
                                ++ [heading_block;
                                    adf_bulletList
                                      (List.map list_item (acceptance_criteria ticket))])) ]}
             {[ "type" := JString "paragraph";
                "content" := JArray [adf_json (adf_text (strip para))] ]}
             (List.map adf_json
                (List.map paragraph_block paras
                 ++ [heading_block;
                     adf_bulletList (List.map list_item (acceptance_criteria ticket))]))
             {[ "type" := JString "text"; "text" := JString (strip para) ]}
             [] (JString (strip para))); reflexivity.
Qed.

(** X10: reading back the document that the update endpoint builds for a
    ticket gives the stripped first paragraph of its rewritten description,
    and the words of the heading when the description has no paragraph with
    text: the technical context and the criteria are not read back. *)
Theorem read_back_document (ticket : RewrittenTicket) :
  description_text_of (adf_json (snd (update_payload ticket)))
  = Value (JString
             match description_paragraphs (rewritten_description ticket) with
             | para :: _ => strip para
             | [] => "Acceptance Criteria"
             end).
Proof. apply description_text_of_document. Qed.

Lemma py_mapM_values {A B} (f : A -> py B) (l : list A) : forall ys,
  py_mapM f l = Value ys -> Forall2 (fun x y => f x = Value y) l ys.
Proof.
  induction l as [|x l IH]; intros ys H; simpl in H.
  - injection H as <-. constructor.
  - destruct (f x) as [y|e] eqn:Ex; [|discriminate]. simpl in H.
    destruct (py_mapM f l) as [ys'|e] eqn:El; [|discriminate]. simpl in H.
    injection H as <-. constructor; [exact Ex|apply IH; reflexivity].
Qed.

Lemma format_issue_value issue formatted :
  format_issue issue = Value formatted ->
  exists members fields,
    issue = JObject members /\
    members !! "key" = Some (fi_key formatted) /\
    default (JObject ∅) (members !! "fields") = JObject fields /\
    fi_summary formatted = default (JString "No summary") (fields !! "summary") /\
    description_text_of (default (JObject ∅) (fields !! "description"))
    = Value (fi_description formatted).
Proof.
  unfold format_issue. intros H.
  destruct issue as [| | | | |members]; try discriminate H.
  cbn [py_get py_bind] in H.
  destruct (default (JObject ∅) (members !! "fields")) as [| | | | |fields] eqn:Ef;
    try discriminate H.
  cbn [py_get py_bind] in H.
  destruct (description_text_of _) as [text|e] eqn:Ed;
    cbn [py_bind] in H; [|discriminate H].
  unfold py_item in H.
  destruct (members !! "key") as [k|] eqn:Ek;
    cbn [py_bind] in H; [|discriminate H].
  injection H as <-.
  exists members, fields. repeat split; assumption.
Qed.

Lemma get_issues_values JIRA_DOMAIN post project_key body items formatted :
  post ("https://" +:+ JIRA_DOMAIN +:+ "/rest/api/3/search") (search_payload project_key)
  = Fetched (JObject body) ->
  body !! "issues" = Some (JArray items) ->
  get_issues JIRA_DOMAIN post project_key = Value (Ok formatted) ->
  Forall2 (fun issue entry =>
             exists members fields,
               issue = JObject members /\
               members !! "key" = Some (fi_key entry) /\
               default (JObject ∅) (members !! "fields") = JObject fields /\
               fi_summary entry = default (JString "No summary") (fields !! "summary") /\
               description_text_of (default (JObject ∅) (fields !! "description"))
               = Value (fi_description entry))
          items formatted.
Proof.
  intros Hpost Hissues H. unfold get_issues in H. rewrite Hpost in H.
  cbn [py_get py_bind] in H. rewrite Hissues in H. simpl in H.
  destruct (py_mapM format_issue items) as [ys|e] eqn:E;
    simpl in H; [|discriminate H].
  injection H as <-.
  apply py_mapM_values in E.
  eapply Forall2_impl; [exact E|]. intros issue entry. apply format_issue_value.
Qed.

(** X11: when the listing succeeds it has one entry per issue of the
    response, in the order of the response; each entry carries the key of its
    issue, its summary or "No summary" when the fields have none, and the
    text read from its description. *)
Theorem get_issues_one_per_issue JIRA_DOMAIN post project_key body items formatted :
  post ("https://" +:+ JIRA_DOMAIN +:+ "/rest/api/3/search") (search_payload project_key)
  = Fetched (JObject body) ->
  body !! "issues" = Some (JArray items) ->
  get_issues JIRA_DOMAIN post project_key = Value (Ok formatted) ->
  Forall2 (fun issue entry =>
             exists members fields,
               issue = JObject members /\
               members !! "key" = Some (fi_key entry) /\
               default (JObject ∅) (members !! "fields") = JObject fields /\
               fi_summary entry = default (JString "No summary") (fields !! "summary") /\
               description_text_of (default (JObject ∅) (fields !! "description"))
               = Value (fi_description entry))
          items formatted.
Proof. apply get_issues_values. Qed.

Lemma get_issues_one_per_issue_witness :
  Forall2 (fun issue entry =>
             exists members fields,
               issue = JObject members /\
               members !! "key" = Some (fi_key entry) /\
               default (JObject ∅) (members !! "fields") = JObject fields /\
               fi_summary entry = default (JString "No summary") (fields !! "summary") /\
               description_text_of (default (JObject ∅) (fields !! "description"))
               = Value (fi_description entry))
          sample_issues
          [ {| fi_key := JString "SHOP-1";
               fi_summary := JString "Checkout page is very slow";
               fi_description := JString "" |};
            {| fi_key := JString "SHOP-2";
               fi_summary := JString "No summary";
               fi_description := JString "Users ask for a dark theme" |} ].
Proof.
  apply (get_issues_one_per_issue "example.atlassian.net" sample_post "SHOP"
           {[ "issues" := JArray sample_issues ]}).
  - reflexivity.
  - reflexivity.
  - vm_compute. reflexivity.
Defined.

(** X12: the listing fails as a whole or not at all.  A failed request
    gives the error 500 "Failed to fetch issues"; a response without an
    ["issues"] entry gives the empty list; an issue that is not a [dict] with a
    ["key"] entry raises out of the endpoint, whatever the other issues are,
    and no partial list is returned. *)
Theorem get_issues_failures JIRA_DOMAIN post project_key :
  let url := "https://" +:+ JIRA_DOMAIN +:+ "/rest/api/3/search" in
  (post url (search_payload project_key) = RequestFailed ->
   get_issues JIRA_DOMAIN post project_key
   = Value (HTTPException 500 "Failed to fetch issues"))
  /\ (forall body,
        post url (search_payload project_key) = Fetched (JObject body) ->
        body !! "issues" = None ->
        get_issues JIRA_DOMAIN post project_key = Value (Ok []))
  /\ (forall body items issue,
        post url (search_payload project_key) = Fetched (JObject body) ->
        body !! "issues" = Some (JArray items) ->
        In issue items ->
        (forall members, issue = JObject members -> members !! "key" = None) ->
        exists error, get_issues JIRA_DOMAIN post project_key = Raises error).
Proof.
  intros url. split; [|split].
  - intros H. unfold get_issues. fold url. rewrite H. reflexivity.
  - intros body H Hnone. unfold get_issues. fold url. rewrite H.
    cbn [py_get py_bind]. rewrite Hnone. reflexivity.
  - intros body items issue H Hissues Hin Hkey.
    destruct (get_issues JIRA_DOMAIN post project_key) as [result|error] eqn:E;
      [|exists error; reflexivity].
    exfalso.
    assert (Hok : exists formatted, result = Ok formatted).
    { unfold get_issues in E. fold url in E. rewrite H in E.
      cbn [py_get py_bind] in E. rewrite Hissues in E. simpl in E.
      destruct (py_mapM format_issue items) as [ys|e]; simpl in E; [|discriminate E].
      injection E as <-. eexists. reflexivity. }
    destruct Hok as [formatted ->].
    pose proof (get_issues_values _ _ _ _ _ _ H Hissues E) as HF.
    apply Forall2_Forall_l with (Q := fun issue => exists members k,
                                        issue = JObject members /\ members !! "key" = Some k)
      in HF.
    + rewrite List.Forall_forall in HF.
      destruct (HF issue Hin) as (members & k & -> & Hk).
      rewrite (Hkey members eq_refl) in Hk. discriminate.
    + apply List.Forall_forall. intros entry _ x (members & fields & -> & Hk & _).
      exists members, (fi_key entry). split; [reflexivity|exact Hk].
Qed.

Lemma get_issues_failures_witness :
  get_issues "example.atlassian.net" (fun _ _ => RequestFailed) "SHOP"
  = Value (HTTPException 500 "Failed to fetch issues")
  /\ get_issues "example.atlassian.net" (fun _ _ => Fetched (JObject ∅)) "SHOP"
     = Value (Ok [])
  /\ exists error,
       get_issues "example.atlassian.net"
         (fun _ _ => Fetched (JObject {[ "issues" :=
                                           JArray (sample_issues ++ [JObject ∅]) ]}))
         "SHOP"
       = Raises error.
Proof.
  split; [|split].
  - apply (get_issues_failures "example.atlassian.net" (fun _ _ => RequestFailed) "SHOP").
    reflexivity.
  - destruct (get_issues_failures "example.atlassian.net"
                (fun _ _ => Fetched (JObject ∅)) "SHOP") as (_ & H & _).
    apply (H ∅); reflexivity.
  - destruct (get_issues_failures "example.atlassian.net"
                (fun _ _ => Fetched (JObject {[ "issues" :=
                                                  JArray (sample_issues ++ [JObject ∅]) ]}))
                "SHOP") as (_ & _ & H).
    apply (H {[ "issues" := JArray (sample_issues ++ [JObject ∅]) ]}
             (sample_issues ++ [JObject ∅]) (JObject ∅)).
    + reflexivity.
    + reflexivity.
    + apply List.in_or_app. right. left. reflexivity.
    + intros members [= <-]. reflexivity.
Defined.

(** ** Keywords in any case *)

Lemma prefix_lower m s :
  String.prefix m s = true -> String.prefix (lower m) (lower s) = true.
Proof.
  revert s. induction m as [|x m IH]; intros s H; [apply prefix_empty|].
  destruct s as [|c s]; [discriminate|].
  rewrite prefix_String in H. apply andb_true_iff in H as [Hx H].
  apply Ascii.eqb_eq in Hx as ->.
  cbn [lower]. rewrite prefix_String, Ascii.eqb_refl, (IH _ H). reflexivity.
Qed.

Lemma str_in_lower m s : str_in m s = true -> str_in (lower m) (lower s) = true.
Proof.
  induction s as [|c s IH]; intros H.
  - destruct m; [reflexivity|discriminate].
  - rewrite str_in_unfold in H. apply orb_true_iff in H as [H|H].
    + apply str_in_prefix. exact (prefix_lower _ (String c s) H).
    + cbn [lower]. rewrite str_in_unfold, (IH H). apply orb_true_r.
Qed.

(** X13: the fallback generator takes the performance branch whenever the
    summary or the description contains one of the six keywords in any
    mixture of upper and lower case, anywhere in the text, inside a longer
    word included. *)
Theorem fallback_keyword_any_case (ticket_data : gmap string string) (word : string) :
  In (lower word) ["slow"; "lag"; "performance"; "speed"; "loading"; "timeout"] ->
  str_in word (default "No Title" (ticket_data !! "summary")) = true
  \/ str_in word (default "" (ticket_data !! "description")) = true ->
  pr_acceptance_criteria (_generate_better_fallback_response ticket_data)
  = performance_criteria
  /\ str_in "performance issues"
       (pr_technical_context (_generate_better_fallback_response ticket_data)) = true.
Proof.
  intros Hword Hin.
  assert (Hperf : is_performance_issue
                    (lower (default "No Title" (ticket_data !! "summary")))
                    (lower (default "" (ticket_data !! "description"))) = true).
  { unfold is_performance_issue. apply existsb_exists.
    exists (lower word). split; [exact Hword|].
    apply orb_true_iff. destruct Hin as [H|H]; [left|right]; apply str_in_lower, H. }
  unfold _generate_better_fallback_response. rewrite Hperf.
  cbn [pr_acceptance_criteria pr_technical_context]. split; [reflexivity|].
  apply str_in_app_r, str_in_app_r.
  apply (str_in_middle "performance issues" " is experiencing ").
Qed.

Lemma fallback_keyword_any_case_witness :
  pr_acceptance_criteria
    (_generate_better_fallback_response {[ "summary" := "Clean up the feature FLAGS" ]})
  = performance_criteria.
Proof.
  apply (fallback_keyword_any_case {[ "summary" := "Clean up the feature FLAGS" ]} "LAG").
  - right. left. reflexivity.
  - left. reflexivity.
Defined.

(** X14: a ticket returned by the rewrite endpoint and then written by the
    update endpoint reads back, in the listing, with a description that has
    text: the stripped first paragraph of its rewritten description, never
    the empty string and never the heading. *)
Theorem rewritten_ticket_reads_back model tickets out (r : RewrittenTicket) :
  rewrite_tickets model tickets = Ok out ->
  r ∈ out ->
  exists para paras,
    description_paragraphs (rewritten_description r) = para :: paras /\
    strip para <> "" /\
    description_text_of (adf_json (snd (update_payload r))) = Value (JString (strip para)).
Proof.
  intros Hok Hr. apply list_elem_of_lookup in Hr as [i Hi].
  destruct (rewrite_tickets_lookup _ _ _ _ _ Hok Hi) as (ticket & _ & ->).
  destruct (parsed_response_nonblank (model i (prompt_for ticket)) ticket) as [Hu _].
  set (parsed := parsed_response_of _ _) in *.
  rewrite description_text_of_document.
  pose proof (description_paragraphs_nonempty
                (rewritten_description (assemble ticket parsed))) as Hpar.
  destruct (description_paragraphs (rewritten_description (assemble ticket parsed)))
    as [|para paras] eqn:E.
  - exfalso. apply Hpar; [|reflexivity].
    cbn [assemble rewritten_description]. rewrite blank_app, Hu. reflexivity.
  - exists para, paras. split; [reflexivity|]. split; [|reflexivity].
    assert (Hin : In para (description_paragraphs
                             (rewritten_description (assemble ticket parsed)))).
    { rewrite E. left. reflexivity. }
    unfold description_paragraphs in Hin. apply List.filter_In in Hin as [_ Hin].
    destruct (strip para); discriminate.
Qed.

Lemma rewritten_ticket_reads_back_witness :
  exists para paras,
    description_paragraphs
      (rewritten_description (rewrite_ticket (sample_model 1) ticket_dark)) = para :: paras /\
    strip para <> "" /\
    description_text_of
      (adf_json (snd (update_payload (rewrite_ticket (sample_model 1) ticket_dark))))
    = Value (JString (strip para)).
Proof.
  apply (rewritten_ticket_reads_back sample_model [ticket_slow; ticket_dark] sample_rewritten).
  - reflexivity.
  - apply list_elem_of_lookup. exists 1. reflexivity.
Defined.

(** ** Occurrences across a separator *)













(** ** Criteria blocks *)









(** ** The three sections of a response *)

Lemma nl2_end_cases s :
  str_in nl2 s = false ->
  str_in nl2 (s +:+ nl1) = false \/ exists s', s = s' +:+ nl1.
Proof.
  induction s as [|c s IH]; intros H; [left; reflexivity|].
  apply str_in_cons_inv in H as [Hp Hs].
  destruct (IH Hs) as [Hl | [s' ->]]; [|right; exists (String c s'); reflexivity].
  destruct s as [|d t].
  - destruct (Ascii.eqb_spec LF c) as [<-|Hne]; [right; exists ""; reflexivity|].
    left. rewrite app_String, app_empty_l, str_in_cons_false; [reflexivity|].
    unfold nl2. rewrite prefix_String.
    apply Ascii.eqb_neq in Hne. rewrite Hne. reflexivity.
  - left. rewrite app_String, str_in_cons_false; [exact Hl|].
    unfold nl2 in *. rewrite app_String. rewrite !prefix_String, prefix_empty in *.
    exact Hp.
Qed.

Lemma rstrip_app_blank a b : blank b = true -> rstrip (a +:+ b) = rstrip a.
Proof.
  intros Hb. induction a as [|c a IH].
  - rewrite app_empty_l. pose proof (nonempty_rstrip b) as H. rewrite Hb in H.
    destruct (rstrip b); [reflexivity|discriminate H].
  - rewrite app_String, !rstrip_cons, IH. reflexivity.
Qed.

Lemma strip_app_blank a b : blank b = true -> strip (a +:+ b) = strip a.
Proof.
  intros Hb. unfold strip.
  rewrite <- !lstrip_rstrip, (rstrip_app_blank _ _ Hb). reflexivity.
Qed.

Lemma parse_criteria_block_after_lf st :
  parse_section st (nl1 +:+ criteria_block)
  = {| current_section := Some in_acceptance_criteria;
       st_user_story := st_user_story st;
       st_acceptance_criteria := st_acceptance_criteria st ++ ["1. Foo"; "2. Bar"];
       st_technical_context := st_technical_context st |}.
Proof. reflexivity. Qed.

(** C5, as stated, fails: in an output of the three blocks with the lines
    "1. Foo" and "2. Bar", separated by blank lines, whose technical context
    names the marker of the user story, the last block is read as the user
    story; the parser does not return the story and the context of the text. *)
Lemma parse_three_sections_counterexample :
  let output :=
    unlines [ "USER STORY:"; "Story"; "";
              "ACCEPTANCE CRITERIA:"; "1. Foo"; "2. Bar"; "";
              "TECHNICAL CONTEXT:"; "See USER STORY: above" ] in
  _parse_ai_response output
  <> {| user_story := "Story";
        pr_acceptance_criteria := ["Foo"; "Bar"];
        pr_technical_context := "See USER STORY: above" |}
  /\ _parse_ai_response output
     = {| user_story := "TECHNICAL CONTEXT:" +:+ nl1 +:+ "See  above";
          pr_acceptance_criteria := ["Foo"; "Bar"];
          pr_technical_context :=
            "This ticket addresses a technical issue that impacts user experience." |}.
Proof. split; [vm_compute; discriminate|vm_compute; reflexivity]. Qed.

(** The same shape with other texts is read differently as well: a story
    that repeats its marker loses it, and blocks separated by carriage return
    and line feed pairs are one block to the parser. *)
Example parse_story_repeats_marker :
  user_story
    (_parse_ai_response
       (unlines [ "USER STORY:"; "Part of USER STORY: 12"; "";
                  "ACCEPTANCE CRITERIA:"; "1. Foo"; "2. Bar"; "";
                  "TECHNICAL CONTEXT:"; "Context" ]))
  = "Part of  12".
Proof. reflexivity. Qed.

Example parse_crlf_blank_lines :
  let crlf := String "013"%char nl1 in
  _parse_ai_response
    ("USER STORY:" +:+ crlf +:+ "Story" +:+ crlf +:+ crlf +:+
     "ACCEPTANCE CRITERIA:" +:+ crlf +:+ "1. Foo" +:+ crlf +:+ "2. Bar" +:+ crlf +:+ crlf +:+
     "TECHNICAL CONTEXT:" +:+ crlf +:+ "Context")
  = {| user_story :=
         "Story" +:+ crlf +:+ crlf +:+
         "ACCEPTANCE CRITERIA:" +:+ crlf +:+ "1. Foo" +:+ crlf +:+ "2. Bar" +:+ crlf +:+ crlf +:+
         "TECHNICAL CONTEXT:" +:+ crlf +:+ "Context";
       pr_acceptance_criteria := [default_criterion];
       pr_technical_context := default_technical_context |}.
Proof. reflexivity. Qed.

(** C5, amended: a model output made of the block "USER STORY:" with a
    story, the block "ACCEPTANCE CRITERIA:" with the lines "1. Foo" and
    "2. Bar", and the block "TECHNICAL CONTEXT:" with a context, the blocks
    separated by two line feeds, parses to the stripped story, the criteria
    "Foo" and "Bar", and the stripped context, when the story and the context
    are not blank and hold no two line feeds in a row, the story does not
    repeat its own marker, and the context holds none of the three markers. *)
Theorem parse_three_sections (story context : string) :
  str_in nl2 story = false ->
  str_in "USER STORY:" story = false ->
  strip story <> "" ->
  str_in nl2 context = false ->
  str_in "USER STORY:" context = false ->
  str_in "ACCEPTANCE CRITERIA:" context = false ->
  str_in "TECHNICAL CONTEXT:" context = false ->
  strip context <> "" ->
  _parse_ai_response
    ("USER STORY:" +:+ story +:+ nl2 +:+
     "ACCEPTANCE CRITERIA:" +:+ nl1 +:+ "1. Foo" +:+ nl1 +:+ "2. Bar" +:+ nl2 +:+
     "TECHNICAL CONTEXT:" +:+ context)
  = {| user_story := strip story;
       pr_acceptance_criteria := ["Foo"; "Bar"];
       pr_technical_context := strip context |}.
Proof.
  intros Hsb Hsu Hsn Hcb Hcu Hca Hct Hcn.
  destruct (nl2_end_cases story Hsb) as [Hend | [s' ->]];
    [exact (parse_three_blocks story context Hend Hsu Hsn Hcb Hcu Hca Hct Hcn)|].
  assert (Hsu' : str_in "USER STORY:" s' = false).
  { destruct (str_in "USER STORY:" s') eqn:E; [|reflexivity].
    rewrite (str_in_app_l _ _ nl1 E) in Hsu. discriminate. }
  rewrite (strip_app_blank s' nl1 eq_refl) in *.
  change ("ACCEPTANCE CRITERIA:" +:+ nl1 +:+ "1. Foo" +:+ nl1 +:+ "2. Bar" +:+ nl2 +:+
          "TECHNICAL CONTEXT:" +:+ context)
    with (criteria_block +:+ nl2 +:+ "TECHNICAL CONTEXT:" +:+ context).
  assert (Htext : "USER STORY:" +:+ (s' +:+ nl1) +:+ nl2 +:+
                  criteria_block +:+ nl2 +:+ "TECHNICAL CONTEXT:" +:+ context
                  = ("USER STORY:" +:+ s') +:+ nl2 +:+
                    (nl1 +:+ criteria_block) +:+ nl2 +:+ "TECHNICAL CONTEXT:" +:+ context).
  { rewrite !app_assoc_str. reflexivity. }
  rewrite Htext.
  unfold _parse_ai_response, parse_sections.
  rewrite split_nl2_app.
  2:{ rewrite app_assoc_str. skip_known. exact Hsb. }
  rewrite split_nl2_app by reflexivity.
  rewrite split_nl2_none.
  2:{ skip_known. exact Hcb. }
  cbn [fold_left].
  rewrite (parse_user_story_block _ _ Hsu'), parse_criteria_block_after_lf.
  rewrite (parse_technical_context_block _ _ Hcu Hca Hct).
  unfold parse_finish.
  cbn [st_user_story st_acceptance_criteria st_technical_context parse_init].
  rewrite (or_str_given _ _ Hsn), (or_str_given _ _ Hcn).
  reflexivity.
Qed.

Lemma parse_three_sections_witness :
  _parse_ai_response sample_output
  = {| user_story := "As a shopper, I want a fast checkout so that I can pay without waiting.";
       pr_acceptance_criteria := ["Foo"; "Bar"];
       pr_technical_context := "The checkout page loads every asset before it renders." |}
  /\ _parse_ai_response
       ("USER STORY: Story" +:+ nl1 +:+ nl2 +:+
        "ACCEPTANCE CRITERIA:" +:+ nl1 +:+ "1. Foo" +:+ nl1 +:+ "2. Bar" +:+ nl2 +:+
        "TECHNICAL CONTEXT: Context" +:+ nl1)
     = {| user_story := "Story";
          pr_acceptance_criteria := ["Foo"; "Bar"];
          pr_technical_context := "Context" |}.
Proof.
  split.
  - exact (parse_three_sections
             (nl1 +:+ "As a shopper, I want a fast checkout so that I can pay without waiting.")
             (nl1 +:+ "The checkout page loads every asset before it renders.")
             eq_refl eq_refl ltac:(discriminate) eq_refl eq_refl eq_refl eq_refl
             ltac:(discriminate)).
  - exact (parse_three_sections (" Story" +:+ nl1) (" Context" +:+ nl1)
             eq_refl eq_refl ltac:(discriminate) eq_refl eq_refl eq_refl eq_refl
             ltac:(discriminate)).
Defined.
